(** * Prefiction backend: admin sessions, credentials and contact intake

    A shallow embedding of [server.js] (Express + Mongoose) and the
    properties of its session store, auth gate, credential resolver and
    contact-form handler.

    Conventions of the embedding
    - JavaScript strings are [string]; a character is one code unit below
      256 (Node decodes header values as Latin-1), and text with other
      code units is outside the model.
    - [Date.now()] and [new Date()] are explicit clock readings (milliseconds,
      in [Z]) handed to each function in the order the source reads them.
    - The in-memory [Map] of sessions is a [gmap string session]; the
      [admins] collection holds at most the one document with key
      ['admin_settings'] and is an [option admin_doc].
    - What the outside world decides (is Mongoose connected, does a query
      reject, which bytes the random generator returns) is an explicit
      argument of the handler that asks for it.
    - A handler maps the server state to a response and a new state; it
      runs to completion before the next request is looked at. *)

From Stdlib Require Import ZArith String Ascii List Bool Lia.
From stdpp Require Import base option gmap strings.
Import ListNotations.
Local Open Scope Z_scope.

(** ** JavaScript values and string primitives *)

Module JS.

(** Result of evaluating something that may throw. *)
Inductive outcome (A : Type) : Type :=
| Returned (a : A)
| Thrown (err : string).
Arguments Returned {A} a.
Arguments Thrown {A} err.

Definition bind {A B} (m : outcome A) (k : A -> outcome B) : outcome B :=
  match m with
  | Returned a => k a
  | Thrown e => Thrown e
  end.

(** WhiteSpace and LineTerminator code units below 256:
    TAB, LF, VT, FF, CR, SP and NBSP. *)
Definition is_ws (c : ascii) : bool :=
  let n := N_of_ascii c in
  ((9 <=? n) && (n <=? 13) || (n =? 32) || (n =? 160))%N.

Fixpoint trimStart (s : string) : string :=
  match s with
  | EmptyString => EmptyString
  | String c s' => if is_ws c then trimStart s' else s
  end.

Fixpoint trimEnd (s : string) : string :=
  match s with
  | EmptyString => EmptyString
  | String c s' =>
      match trimEnd s' with
      | EmptyString => if is_ws c then EmptyString else String c EmptyString
      | t => String c t
      end
  end.

(** [String.prototype.trim] *)
Definition trim (s : string) : string := trimEnd (trimStart s).

(** [s.split(sep)] for a one-character separator: never empty, the
    empty string splits into one empty piece. *)
Fixpoint split (sep : ascii) (s : string) : list string :=
  match s with
  | EmptyString => [EmptyString]
  | String c s' =>
      if Ascii.eqb c sep then EmptyString :: split sep s'
      else match split sep s' with
           | h :: t => String c h :: t
           | [] => [String c EmptyString]
           end
  end.

(** [s.startsWith(p)] *)
Definition startsWith (p s : string) : bool := String.prefix p s.

(** [Array.prototype.find] *)
Fixpoint find {A} (f : A -> bool) (l : list A) : option A :=
  match l with
  | [] => None
  | x :: l' => if f x then Some x else find f l'
  end.

(** Truthiness of a string: only the empty string is falsy. *)
Definition truthy_str (s : string) : bool := negb (String.eqb s "").

(** Truthiness of [string | undefined]. *)
Definition truthy_opt (o : option string) : bool :=
  match o with
  | Some s => truthy_str s
  | None => false
  end.

(** [o || d] for [o : string | undefined]. *)
Definition or_else (o : option string) (d : string) : string :=
  match o with
  | Some s => if truthy_str s then s else d
  | None => d
  end.

(** A value other than a string or [undefined] (null, boolean, number,
    array, object), given by what the handlers observe of it. Comparing
    [v.length] with 6 and converting with [String(v)] run the value's own
    [valueOf] and [toString], and throw when neither yields a primitive
    (as for the JSON object [{"toString": 1}]); the cast of a [String]
    schema path throws a CastError for a value without a [toString] of
    its own. *)
Record other := {
  o_truthy : bool;               (* ToBoolean(v) *)
  o_length_lt_6 : outcome bool;  (* v.length < 6 *)
  o_string : outcome string;     (* String(v) *)
  o_cast : outcome string        (* Mongoose's cast of v to a String path *)
}.

(** A field of a parsed request body. *)
Inductive value :=
| Undefined
| Str (s : string)
| Other (o : other).

Definition truthy (v : value) : bool :=
  match v with
  | Undefined => false
  | Str s => truthy_str s
  | Other o => o_truthy o
  end.

(** [v === s] where [s] is a string. *)
Definition strict_eq_str (v : value) (s : string) : bool :=
  match v with
  | Str t => String.eqb t s
  | _ => false
  end.

(** [v.trim()]: only strings have the method. *)
Definition call_trim (v : value) : outcome string :=
  match v with
  | Str s => Returned (trim s)
  | Undefined => Thrown "Cannot read properties of undefined"
  | Other _ => Thrown "trim is not a function"
  end.

(** [v.length < n] at [n = 6]. *)
Definition length_lt_6 (v : value) : outcome bool :=
  match v with
  | Str s => Returned (Z.of_nat (String.length s) <? 6)
  | Other o => o_length_lt_6 o
  | Undefined => Thrown "Cannot read properties of undefined"
  end.

(** [String(v)], the conversion applied when a value is assigned to a
    property of [process.env]. *)
Definition to_string (v : value) : outcome string :=
  match v with
  | Str s => Returned s
  | Other o => o_string o
  | Undefined => Returned "undefined"
  end.

(** What a [String] schema path makes of [v] when Mongoose casts an
    update; a missing value is not cast to a string. *)
Definition cast_string (v : value) : outcome string :=
  match v with
  | Str s => Returned s
  | Other o => o_cast o
  | Undefined => Thrown "Cast to string failed"
  end.

(** What the environment keeps of a string: its values are C strings,
    which end at the first NUL. *)
Fixpoint c_string (s : string) : string :=
  match s with
  | EmptyString => EmptyString
  | String c s' => if Ascii.eqb c zero then EmptyString else String c (c_string s')
  end.

End JS.
Import JS.

(** ** Server state *)

Record session := { createdAt : Z; expires : Z }.

(** models/Admin.js: [{ key, password, updatedAt }], [key] fixed. *)
Record admin_doc := { password : string; updatedAt : Z }.

(** A stored contact submission. *)
Record submission := {
  sub_id : string;
  sub_name : string;
  sub_company : string;
  sub_email : string;
  sub_message : string
}.

(** The part of [process.env] the server reads. *)
Record environ := {
  MONGODB_URI : option string;
  ADMIN_API_KEY : option string;
  ADMIN_PANEL_PASSWORD : option string
}.

Record server := {
  env : environ;                    (* process.env *)
  ADMIN_KEY : string;               (* const ADMIN_KEY *)
  SESSIONS : gmap string session;   (* const SESSIONS = new Map() *)
  admins : option admin_doc;        (* Admin collection, key 'admin_settings' *)
  submissions : list submission     (* Submission collection *)
}.

Definition set_SESSIONS (m : gmap string session) (st : server) : server :=
  {| env := env st; ADMIN_KEY := ADMIN_KEY st; SESSIONS := m;
     admins := admins st; submissions := submissions st |}.

(** [process.env.ADMIN_PANEL_PASSWORD = p] for a string [p] *)
Definition set_env_password (p : string) (st : server) : server :=
  {| env := {| MONGODB_URI := MONGODB_URI (env st);
               ADMIN_API_KEY := ADMIN_API_KEY (env st);
               ADMIN_PANEL_PASSWORD := Some (c_string p) |};
     ADMIN_KEY := ADMIN_KEY st; SESSIONS := SESSIONS st;
     admins := admins st; submissions := submissions st |}.

Definition set_admins (d : option admin_doc) (st : server) : server :=
  {| env := env st; ADMIN_KEY := ADMIN_KEY st; SESSIONS := SESSIONS st;
     admins := d; submissions := submissions st |}.

Definition add_submission (s : submission) (st : server) : server :=
  {| env := env st; ADMIN_KEY := ADMIN_KEY st; SESSIONS := SESSIONS st;
     admins := admins st; submissions := submissions st ++ [s] |}.

(** ** Requests and responses *)

Record reqbody := {
  b_name : value;
  b_email : value;
  b_company : value;
  b_message : value;
  b_password : value;
  b_currentPassword : value;
  b_newPassword : value
}.

Record request := {
  x_api_key : option string;  (* req.get('x-api-key') *)
  cookie : option string;     (* req.get('cookie') *)
  body : option reqbody       (* req.body *)
}.

Inductive payload :=
| PError (error : string)
| POk
| POkMessage (message : string)
| PCreated (id : string).

Inductive cookie_op :=
| CookieKeep
| CookieSet (sid : string) (maxAge : Z)
| CookieClear.

Record response := { status : Z; json : payload; set_cookie : cookie_op }.

Definition respond (code : Z) (p : payload) : response :=
  {| status := code; json := p; set_cookie := CookieKeep |}.

(** ** Session store (server.js 145-167) *)

Definition SESSION_TTL_MS : Z := 1000 * 60 * 60.

(** [createSession]: [id] is [crypto.randomBytes(24).toString('hex')]. *)
Definition createSession (id : string) (now : Z) (st : server) : string * server :=
  (id, set_SESSIONS (<[id := {| createdAt := now; expires := now + SESSION_TTL_MS |}]> (SESSIONS st)) st).

(** [isSessionValid(id)], [now] being its [Date.now()]. *)
Definition isSessionValid (now : Z) (id : option string) (st : server) : bool * server :=
  match id with
  | None => (false, st)
  | Some id =>
      if negb (truthy_str id) then (false, st)
      else match SESSIONS st !! id with
           | None => (false, st)
           | Some s =>
               if now >? expires s
               then (false, set_SESSIONS (delete id (SESSIONS st)) st)
               else (true, st)
           end
  end.

(** ** Auth gate (server.js 169-185) *)

(** The first cookie of the header that starts with [admin_sid=]. *)
Definition cookie_match (req : request) : option string :=
  let cookieHeader := or_else (cookie req) "" in
  find (startsWith "admin_sid=") (map trim (split ";" cookieHeader)).

(** [match.split('=')[1]] *)
Definition cookie_sid (m : string) : option string :=
  nth_error (split "=" m) 1.

Inductive auth_result :=
| Next
| Denied (r : response).

Definition unauthorized : response := respond 401 (PError "unauthorized").

(** [requireAdminAuth]: [now_check] is the clock read inside
    [isSessionValid], [now_refresh] the one read for the new expiry. *)
Definition requireAdminAuth (now_check now_refresh : Z) (req : request) (st : server)
  : outcome auth_result * server :=
  let key := x_api_key req in
  if truthy_opt key && bool_decide (key = Some (ADMIN_KEY st)) then (Returned Next, st)
  else
    match cookie_match req with
    | None => (Returned (Denied unauthorized), st)
    | Some m =>
        let sid := cookie_sid m in
        let '(valid, st1) := isSessionValid now_check sid st in
        if negb valid then (Returned (Denied unauthorized), st1)
        else
          match sid with
          | None => (Thrown "Cannot set properties of undefined", st1)
          | Some id =>
              match SESSIONS st1 !! id with
              | None => (Thrown "Cannot set properties of undefined", st1)
              | Some sess =>
                  let sess' := {| createdAt := createdAt sess;
                                  expires := now_refresh + SESSION_TTL_MS |} in
                  (Returned Next, set_SESSIONS (<[id := sess']> (SESSIONS st1)) st1)
              end
          end
    end.

(** A route [app.METHOD(path, requireAdminAuth, handler)]; an exception
    escaping the middleware reaches Express's default error handler. *)
Definition guarded (auth : outcome auth_result * server)
    (handler : server -> response * server) : response * server :=
  match auth with
  | (Returned Next, st) => handler st
  | (Returned (Denied r), st) => (r, st)
  | (Thrown e, st) => (respond 500 (PError e), st)
  end.

(** ** Admin credential (server.js 232-246) *)

(** How a Mongoose operation settles. *)
Inductive db_reply :=
| DbOk
| DbError (message : string).

Definition default_panel_password : string := "57d3e160e7b006b0359fa54440799a6b".

(** [process.env.ADMIN_PANEL_PASSWORD || '57d3...'] *)
Definition fallback_password (st : server) : string :=
  or_else (ADMIN_PANEL_PASSWORD (env st)) default_panel_password.

(** [Admin.findOne({ key: 'admin_settings' })] *)
Definition Admin_findOne (r : db_reply) (st : server) : outcome (option admin_doc) :=
  match r with
  | DbOk => Returned (admins st)
  | DbError e => Thrown e
  end.

(** [getAdminPassword]: the [try] block either returns a password, falls
    through, or throws into the [catch], which only logs. *)
Definition getAdminPassword (readyState : Z) (findOne : db_reply) (st : server)
  : outcome string :=
  let try_block : outcome (option string) :=
    if readyState =? 1 then
      bind (Admin_findOne findOne st) (fun adminSettings =>
        match adminSettings with
        | Some d => if truthy_str (password d) then Returned (Some (password d))
                    else Returned None
        | None => Returned None
        end)
    else Returned None in
  match try_block with
  | Returned (Some p) => Returned p
  | Returned None => Returned (fallback_password st)
  | Thrown _ => Returned (fallback_password st)
  end.

(** ** POST /admin/verify (server.js 249-276) *)

Record verify_world := {
  v_readyState : Z;
  v_findOne : db_reply;
  v_randomBytes : outcome string; (* crypto.randomBytes(24).toString('hex') *)
  v_now : Z
}.

Definition internal_error : response := respond 500 (PError "internal server error").

Definition verify (w : verify_world) (req : request) (st : server) : response * server :=
  let password :=
    match body req with
    | Some b => if truthy (b_password b) then b_password b else Str ""
    | None => Str ""
    end in
  match getAdminPassword (v_readyState w) (v_findOne w) st with
  | Thrown _ => (internal_error, st)
  | Returned expected =>
      if truthy password && strict_eq_str password expected then
        match v_randomBytes w with
        | Returned id =>
            let '(sid, st') := createSession id (v_now w) st in
            ({| status := 200; json := POk;
                set_cookie := CookieSet sid SESSION_TTL_MS |}, st')
        | Thrown _ => (respond 200 POk, st)
        end
      else (unauthorized, st)
  end.

(** ** POST /admin/change-password (server.js 280-323) *)

Record change_world := {
  c_readyState_lookup : Z;        (* read by getAdminPassword *)
  c_findOne : db_reply;
  c_readyState_persist : Z;       (* read before the upsert *)
  c_findOneAndUpdate : db_reply;
  c_now : Z                       (* new Date() *)
}.

(** [Admin.findOneAndUpdate({key}, {password, updatedAt}, {upsert: true})]:
    the update is cast to the schema before it is sent. *)
Definition Admin_findOneAndUpdate (r : db_reply) (newPassword : value) (now : Z)
    (st : server) : outcome unit * server :=
  match cast_string newPassword with
  | Thrown e => (Thrown e, st)
  | Returned password =>
      match r with
      | DbOk => (Returned tt,
                 set_admins (Some {| password := password; updatedAt := now |}) st)
      | DbError e => (Thrown e, st)
      end
  end.

(** The handler behind the gate. *)
Definition changePassword (w : change_world) (req : request) (st : server)
  : response * server :=
  match body req with
  | None => (internal_error, st)
  | Some b =>
      let currentPassword := b_currentPassword b in
      let newPassword := b_newPassword b in
      match getAdminPassword (c_readyState_lookup w) (c_findOne w) st with
      | Thrown _ => (internal_error, st)
      | Returned expectedPassword =>
          if negb (truthy currentPassword) || negb (truthy newPassword) then
            (respond 400 (PError "Current and new password required"), st)
          else if negb (strict_eq_str currentPassword expectedPassword) then
            (respond 401 (PError "Current password is incorrect"), st)
          else
            match length_lt_6 newPassword with
            | Thrown _ => (internal_error, st)
            | Returned true =>
                (respond 400 (PError "New password must be at least 6 characters"), st)
            | Returned false =>
                match to_string newPassword with
                | Thrown _ => (internal_error, st)
                | Returned p =>
                    let st1 := set_env_password p st in
                    let st2 :=
                      if c_readyState_persist w =? 1 then
                        snd (Admin_findOneAndUpdate (c_findOneAndUpdate w) newPassword
                               (c_now w) st1)
                      else st1 in
                    let st3 := set_SESSIONS ∅ st2 in
                    ({| status := 200;
                        json := POkMessage "Password changed successfully. Please log in again.";
                        set_cookie := CookieClear |}, st3)
                end
            end
      end
  end.

(** The route: gate, then handler. *)
Definition changePassword_route (now_check now_refresh : Z) (w : change_world)
    (req : request) (st : server) : response * server :=
  guarded (requireAdminAuth now_check now_refresh req st) (changePassword w req).

(** ** POST /admin/logout (server.js 326-340) *)

Definition logout (req : request) (st : server) : response * server :=
  let st' :=
    match cookie_match req with
    | Some m =>
        match cookie_sid m with
        | Some sid =>
            if truthy_str sid && bool_decide (is_Some (SESSIONS st !! sid))
            then set_SESSIONS (delete sid (SESSIONS st)) st
            else st
        | None => st
        end
    | None => st
    end in
  ({| status := 200; json := POk; set_cookie := CookieClear |}, st').

(** ** POST /api/contact (server.js 122-142) *)

Record contact_world := {
  k_objectId : string;  (* the _id given by [new Submission] *)
  k_save : db_reply     (* how [submission.save()] settles *)
}.

(** [v ? v.trim() : ''] *)
Definition trim_or_empty (v : value) : outcome string :=
  if truthy v then call_trim v else Returned "".

(** A field of [req.body || {}] *)
Definition body_field (f : reqbody -> value) (req : request) : value :=
  match body req with
  | Some b => f b
  | None => Undefined
  end.

Definition contact (w : contact_world) (req : request) (st : server) : response * server :=
  let name := body_field b_name req in
  let email := body_field b_email req in
  let company := body_field b_company req in
  let message := body_field b_message req in
  if negb (truthy email) || negb (truthy name) then
    (respond 400 (PError "name and email are required"), st)
  else
    let doc :=
      bind (call_trim name) (fun n =>
      bind (trim_or_empty company) (fun c =>
      bind (call_trim email) (fun e =>
      bind (trim_or_empty message) (fun m =>
      Returned {| sub_id := k_objectId w; sub_name := n; sub_company := c;
                  sub_email := e; sub_message := m |})))) in
    match doc with
    | Thrown _ => (internal_error, st)
    | Returned submission =>
        match k_save w with
        | DbError _ => (internal_error, st)
        | DbOk => (respond 201 (PCreated (sub_id submission)), add_submission submission st)
        end
    end.

(** ** Startup (server.js 16-20, 145-148) *)

(** [None] is [process.exit(1)]; the collections are whatever the
    database holds when the process starts. *)
Definition startup (e : environ) (db_admins : option admin_doc)
    (db_submissions : list submission) : option server :=
  let mongoUri := MONGODB_URI e in
  if negb (truthy_opt mongoUri) then None
  else Some {| env := e;
               ADMIN_KEY := or_else (ADMIN_API_KEY e) "dev-secret";
               SESSIONS := ∅;
               admins := db_admins;
               submissions := db_submissions |}.

(** ** CORS origin check (server.js 74-89) *)

(** [s.includes(sub)] *)
Fixpoint includes (sub s : string) : bool :=
  String.prefix sub s ||
  match s with
  | EmptyString => false
  | String _ s' => includes sub s'
  end.

Definition allowedOrigins : list string :=
  ["https://prefiction-fronted.vercel.app"; "http://localhost:3000"; "http://localhost:5173"].

(** The [origin] function of [corsOptions]; the result is the second
    argument it hands to [callback] (the first is always [null]). *)
Definition cors_origin (origin : option string) : bool :=
  if negb (truthy_opt origin)
     || match origin with
        | Some o => includes "vercel.app" o || existsb (String.eqb o) allowedOrigins
        | None => false
        end
  then true
  else true.

(** ** GET and POST /admin/submissions (server.js 187-212) *)

Inductive list_result :=
| Rows (rows : list submission)      (* 200 [{ rows }] *)
| Reply (r : response)               (* an [{ error }] answer *)
| DatabaseError (message : string).  (* 500 [{ error: 'database error', message }] *)

(** The handler behind the gate. [newest_first] is the order
    [sort({ createdAt: -1 })] gives; [createdAt] belongs to the Submission
    schema, which is not among the sources. *)
Definition listSubmissions (readyState : Z) (find_exec : db_reply)
    (newest_first : list submission -> list submission) (st : server)
  : list_result * server :=
  if negb (readyState =? 1) then
    (Reply (respond 503 (PError "database not connected")), st)
  else
    match find_exec with
    | DbOk => (Rows (newest_first (submissions st)), st)
    | DbError e => (DatabaseError e, st)
    end.

Definition listSubmissions_route (now_check now_refresh : Z) (readyState : Z)
    (find_exec : db_reply) (newest_first : list submission -> list submission)
    (req : request) (st : server) : list_result * server :=
  match requireAdminAuth now_check now_refresh req st with
  | (Returned Next, st1) => listSubmissions readyState find_exec newest_first st1
  | (Returned (Denied r), st1) => (Reply r, st1)
  | (Thrown e, st1) => (Reply (respond 500 (PError e)), st1)
  end.

(** ** DELETE /admin/submissions/:id (server.js 215-230) *)

Definition set_submissions (l : list submission) (st : server) : server :=
  {| env := env st; ADMIN_KEY := ADMIN_KEY st; SESSIONS := SESSIONS st;
     admins := admins st; submissions := l |}.

(** The collection without its first document of that [_id]. *)
Fixpoint remove_id (id : string) (l : list submission) : list submission :=
  match l with
  | [] => []
  | s :: l' => if String.eqb (sub_id s) id then l' else s :: remove_id id l'
  end.

(** [Submission.findByIdAndDelete(id)]. An [_id] is held as the 24
    lower-case hexadecimal digits that spell the ObjectId, and the ids are
    compared as strings: that is the comparison of Mongoose, which casts
    [id] to an ObjectId first, when [id] is spelt that way too. (For
    another spelling Mongoose either finds the document whose id has the
    same digits in lower case, or rejects with a cast error; neither is
    modelled.) *)
Definition Submission_findByIdAndDelete (r : db_reply) (id : string) (st : server)
  : outcome (option submission) * server :=
  match r with
  | DbError e => (Thrown e, st)
  | DbOk =>
      match find (fun s => String.eqb (sub_id s) id) (submissions st) with
      | Some doc => (Returned (Some doc), set_submissions (remove_id id (submissions st)) st)
      | None => (Returned None, st)
      end
  end.

(** The handler behind the gate; [id] is [req.params.id]. *)
Definition deleteSubmission (r : db_reply) (id : option string) (st : server)
  : response * server :=
  let id_required := (respond 400 (PError "submission id required"), st) in
  match id with
  | None => id_required
  | Some id =>
      if negb (truthy_str id) then id_required
      else
        match Submission_findByIdAndDelete r id st with
        | (Thrown _, st') => (internal_error, st')
        | (Returned None, st') => (respond 404 (PError "submission not found"), st')
        | (Returned (Some _), st') =>
            ({| status := 200; json := POkMessage "submission deleted";
                set_cookie := CookieKeep |}, st')
        end
  end.

Definition deleteSubmission_route (now_check now_refresh : Z) (r : db_reply)
    (id : option string) (req : request) (st : server) : response * server :=
  guarded (requireAdminAuth now_check now_refresh req st) (deleteSubmission r id).

(** * Vocabulary of the statements, and the data of the examples *)

(** The presented key is non-empty and is the configured admin key. *)
Definition key_accepted (req : request) (st : server) : Prop :=
  exists k, x_api_key req = Some k /\ k <> "" /\ k = ADMIN_KEY st.

(** The session token the request presents in its cookie header. *)
Definition presented_token (req : request) : option string :=
  cookie_match req ≫= cookie_sid.

Definition password_changed : response :=
  {| status := 200;
     json := POkMessage "Password changed successfully. Please log in again.";
     set_cookie := CookieClear |}.

(** The three checks of the handler, in any order: a field is missing,
    the current password is not the resolved one, the new one is short. *)
Definition fails_validation (b : reqbody) (expected : string) : Prop :=
  truthy (b_currentPassword b) = false
  \/ truthy (b_newPassword b) = false
  \/ strict_eq_str (b_currentPassword b) expected = false
  \/ length_lt_6 (b_newPassword b) = Returned true.

Definition passes_validation (b : reqbody) (expected : string) : Prop :=
  truthy (b_currentPassword b) = true
  /\ truthy (b_newPassword b) = true
  /\ strict_eq_str (b_currentPassword b) expected = true
  /\ length_lt_6 (b_newPassword b) = Returned false.

(** State left by a call that passed the checks and whose new password
    converted to the string [p]. *)
Definition after_change (w : change_world) (newPassword : value) (p : string)
    (st : server) : server :=
  let persisted :=
    match cast_string newPassword, c_findOneAndUpdate w with
    | Returned password, DbOk =>
        if c_readyState_persist w =? 1
        then Some {| password := password; updatedAt := c_now w |}
        else admins st
    | _, _ => admins st
    end in
  {| env := {| MONGODB_URI := MONGODB_URI (env st);
               ADMIN_API_KEY := ADMIN_API_KEY (env st);
               ADMIN_PANEL_PASSWORD := Some (c_string p) |};
     ADMIN_KEY := ADMIN_KEY st;
     SESSIONS := ∅;
     admins := persisted;
     submissions := submissions st |}.

(** A running server used in the examples below: one live session, the
    panel password taken from the environment, no [admin_settings] yet. *)
Definition demo_server : server :=
  {| env := {| MONGODB_URI := Some "mongodb://db/prefiction";
               ADMIN_API_KEY := Some "k3y-for-admins";
               ADMIN_PANEL_PASSWORD := Some "admin1234" |};
     ADMIN_KEY := "k3y-for-admins";
     SESSIONS := {[ "ab12" := {| createdAt := 0; expires := 3600000 |} ]};
     admins := None;
     submissions := [] |}.

Definition change_body (current new : value) : reqbody :=
  {| b_name := Undefined; b_email := Undefined; b_company := Undefined;
     b_message := Undefined; b_password := Undefined;
     b_currentPassword := current; b_newPassword := new |}.

(** Authenticated by API key, asking to replace admin1234 by hunter22. *)
Definition demo_change : request :=
  {| x_api_key := Some "k3y-for-admins"; cookie := None;
     body := Some (change_body (Str "admin1234") (Str "hunter22")) |}.

(** Connected, but the upsert rejects. *)
Definition world_upsert_rejects : change_world :=
  {| c_readyState_lookup := 1; c_findOne := DbOk;
     c_readyState_persist := 1; c_findOneAndUpdate := DbError "server selection timed out";
     c_now := 5000 |}.

(** The upsert did not happen: it rejected, or Mongoose was not connected
    and it was not attempted. *)
Definition persist_fails (w : change_world) : Prop :=
  c_readyState_persist w <> 1 \/ exists e, c_findOneAndUpdate w = DbError e.

Definition logged_out : response :=
  {| status := 200; json := POk; set_cookie := CookieClear |}.

(** [n] logouts in a row with the same request. *)
Fixpoint logout_times (n : nat) (req : request) (st : server) : server :=
  match n with
  | O => st
  | S n' => logout_times n' req (snd (logout req st))
  end.

(** What can happen to the server: a validity check, a pass through the
    gate (as in front of every admin route), and the handlers. *)
Inductive op :=
| OpIsValid (now : Z) (id : option string)
| OpAuthorize (now_check now_refresh : Z) (req : request)
| OpLogout (req : request)
| OpChangePassword (now_check now_refresh : Z) (w : change_world) (req : request)
| OpContact (w : contact_world) (req : request)
| OpVerify (w : verify_world) (req : request).

Definition step (o : op) (st : server) : server :=
  match o with
  | OpIsValid now id => snd (isSessionValid now id st)
  | OpAuthorize now_check now_refresh req => snd (requireAdminAuth now_check now_refresh req st)
  | OpLogout req => snd (logout req st)
  | OpChangePassword now_check now_refresh w req =>
      snd (changePassword_route now_check now_refresh w req st)
  | OpContact w req => snd (contact w req st)
  | OpVerify w req => snd (verify w req st)
  end.

(** [o] is a login for which the random generator yields the token [t]. *)
Definition mints (t : string) (o : op) : Prop :=
  match o with
  | OpVerify w _ => v_randomBytes w = Returned t
  | _ => False
  end.

Fixpoint run (ops : list op) (st : server) : server :=
  match ops with
  | [] => st
  | o :: ops' => run ops' (step o st)
  end.

Definition cookie_request (c : string) : request :=
  {| x_api_key := None; cookie := Some c; body := None |}.

Definition env_without_admin_secrets : environ :=
  {| MONGODB_URI := Some "mongodb://db/prefiction";
     ADMIN_API_KEY := None;
     ADMIN_PANEL_PASSWORD := None |}.

Definition login_body (p : value) : reqbody :=
  {| b_name := Undefined; b_email := Undefined; b_company := Undefined;
     b_message := Undefined; b_password := p;
     b_currentPassword := Undefined; b_newPassword := Undefined |}.

Definition contact_body (name email company message : value) : reqbody :=
  {| b_name := name; b_email := email; b_company := company; b_message := message;
     b_password := Undefined; b_currentPassword := Undefined; b_newPassword := Undefined |}.

(** A name of three spaces. *)
Definition blank_name_request : request :=
  {| x_api_key := None; cookie := None;
     body := Some (contact_body (Str "   ") (Str "a@b.com") Undefined Undefined) |}.

(** A name and an email with content. *)
Definition named_request : request :=
  {| x_api_key := None; cookie := None;
     body := Some (contact_body (Str "Ada") (Str "a@b.com") Undefined Undefined) |}.

Definition bad_request : response := respond 400 (PError "name and email are required").

(** Every character of [s] satisfies [p]. *)
Fixpoint all_chars (p : ascii -> bool) (s : string) : bool :=
  match s with
  | EmptyString => true
  | String c s' => p c && all_chars p s'
  end.

Definition not_char (sep c : ascii) : bool := negb (Ascii.eqb c sep).

Definition not_ws (c : ascii) : bool := negb (is_ws c).

(** No character of [s] is NUL. *)
Definition nul_free (s : string) : Prop := all_chars (not_char zero) s = true.

(** One of [0-9a-f]. *)
Definition is_lower_hex (c : ascii) : bool :=
  let n := nat_of_ascii c in
  (Nat.leb 48 n && Nat.leb n 57) || (Nat.leb 97 n && Nat.leb n 102).

(** The spelling of an ObjectId: 24 lower-case hexadecimal digits. *)
Definition object_id (s : string) : Prop :=
  String.length s = 24%nat /\ all_chars is_lower_hex s = true.

(** A character that may stand in a cookie value sent back to the
    server: no whitespace, no [;]. *)
Definition value_char (c : ascii) : bool := not_ws c && not_char ";" c.

(** A character of a session token: as above and no [=] (hexadecimal
    digits are such characters). *)
Definition token_char (c : ascii) : bool := value_char c && not_char "=" c.

(** The cookie header a client sends: its cookies joined by [; ]. *)
Fixpoint cookie_header (cookies : list string) : string :=
  match cookies with
  | [] => ""
  | [c] => c
  | c :: rest => c +:+ "; " +:+ cookie_header rest
  end.

(** The cookie carrying the session token [t]. *)
Definition session_cookie (t : string) : string := "admin_sid=" +:+ t.

(** Successive passes through the gate with the same request, each with
    its two clock readings; [true] when every one of them got through. *)
Fixpoint gate_passes (times : list (Z * Z)) (req : request) (st : server) : bool * server :=
  match times with
  | [] => (true, st)
  | (now_check, now_refresh) :: rest =>
      match requireAdminAuth now_check now_refresh req st with
      | (Returned Next, st') => gate_passes rest req st'
      | (_, st') => (false, st')
      end
  end.

(** Each request comes no later than [SESSION_TTL_MS] after the refresh
    of the one before it, the first no later than [deadline]. *)
Fixpoint kept_alive (deadline : Z) (times : list (Z * Z)) : Prop :=
  match times with
  | [] => True
  | (now_check, now_refresh) :: rest =>
      now_check <= deadline /\ kept_alive (now_refresh + SESSION_TTL_MS) rest
  end.

Definition world_upsert_ok : change_world :=
  {| c_readyState_lookup := 1; c_findOne := DbOk;
     c_readyState_persist := 1; c_findOneAndUpdate := DbOk; c_now := 5000 |}.

Definition server_with_record : server :=
  set_admins (Some {| password := "first-pw"; updatedAt := 10 |}) demo_server.

Definition change_from_record : request :=
  {| x_api_key := Some "k3y-for-admins"; cookie := None;
     body := Some (change_body (Str "first-pw") (Str "hunter22")) |}.

Definition number_42 : other :=
  {| o_truthy := true; o_length_lt_6 := Returned false; o_string := Returned "42";
     o_cast := Returned "42" |}.

Definition deleted : response :=
  {| status := 200; json := POkMessage "submission deleted"; set_cookie := CookieKeep |}.

Definition not_found : response := respond 404 (PError "submission not found").

Definition ada : submission :=
  {| sub_id := "65f0c0ffee0123456789abcd"; sub_name := "Ada"; sub_company := "";
     sub_email := "ada@example.com"; sub_message := "hello" |}.

Definition bob : submission :=
  {| sub_id := "65f0c0ffee0123456789abce"; sub_name := "Bob"; sub_company := "Acme";
     sub_email := "bob@example.com"; sub_message := "" |}.

Definition json_true : other :=
  {| o_truthy := true; o_length_lt_6 := Returned false; o_string := Returned "true";
     o_cast := Returned "true" |}.

(** The JSON object [{"toString": 1}]: it has no [length], and neither
    its [toString], which is not a function, nor the [valueOf] it
    inherits yields a primitive. *)
Definition json_toString_1 : other :=
  {| o_truthy := true; o_length_lt_6 := Returned false;
     o_string := Thrown "Cannot convert object to primitive value";
     o_cast := Thrown "Cast to string failed" |}.

(** * Properties *)

(** ** Strings and truthiness *)

Lemma truthy_str_true s : truthy_str s = true <-> s <> "".
Proof.
  unfold truthy_str. rewrite negb_true_iff.
  destruct (String.eqb_spec s ""); split; congruence.
Qed.

Lemma truthy_str_false s : truthy_str s = false <-> s = "".
Proof.
  unfold truthy_str. rewrite negb_false_iff. apply String.eqb_eq.
Qed.

Lemma or_else_truthy o d : truthy_str d = true -> truthy_str (or_else o d) = true.
Proof.
  intros Hd. destruct o as [s|]; simpl; [|exact Hd].
  destruct (truthy_str s) eqn:E; [exact E | exact Hd].
Qed.

Lemma c_string_nul_free s : nul_free s -> c_string s = s.
Proof.
  unfold nul_free. induction s as [|c s IH]; simpl; [done|].
  unfold not_char at 1. rewrite andb_true_iff, negb_true_iff. intros [-> Hs].
  by rewrite IH.
Qed.

(** ** Session store *)

Section SessionStore.

Variables (now : Z) (st : server).

Lemma isSessionValid_undefined : isSessionValid now None st = (false, st).
Proof. reflexivity. Qed.

Lemma isSessionValid_empty : isSessionValid now (Some "") st = (false, st).
Proof. reflexivity. Qed.

Lemma isSessionValid_unknown t :
  SESSIONS st !! t = None -> isSessionValid now (Some t) st = (false, st).
Proof.
  intros H. unfold isSessionValid. rewrite H. by destruct (negb (truthy_str t)).
Qed.

Lemma isSessionValid_live t s :
  t <> "" -> SESSIONS st !! t = Some s -> now <= expires s ->
  isSessionValid now (Some t) st = (true, st).
Proof.
  intros Ht Hs Hle. unfold isSessionValid.
  apply truthy_str_true in Ht. rewrite Ht, Hs. simpl.
  destruct (now >? expires s) eqn:E; [lia | reflexivity].
Qed.

Lemma isSessionValid_stale t s :
  t <> "" -> SESSIONS st !! t = Some s -> now > expires s ->
  isSessionValid now (Some t) st = (false, set_SESSIONS (delete t (SESSIONS st)) st).
Proof.
  intros Ht Hs Hgt. unfold isSessionValid.
  apply truthy_str_true in Ht. rewrite Ht, Hs. simpl.
  destruct (now >? expires s) eqn:E; [reflexivity | lia].
Qed.

(** What a positive answer means. *)
Lemma isSessionValid_true_inv id :
  fst (isSessionValid now id st) = true ->
  exists t s, id = Some t /\ t <> "" /\ SESSIONS st !! t = Some s /\
              now <= expires s /\ isSessionValid now id st = (true, st).
Proof.
  destruct id as [t|]; [|discriminate].
  destruct (String.eqb_spec t "") as [->|Ht]; [discriminate|].
  destruct (SESSIONS st !! t) as [s|] eqn:Hs.
  - destruct (Z_le_gt_dec now (expires s)) as [Hle|Hgt].
    + intros _. exists t, s. eauto 6 using isSessionValid_live.
    + rewrite (isSessionValid_stale t s Ht Hs Hgt). discriminate.
  - rewrite (isSessionValid_unknown t Hs). discriminate.
Qed.

End SessionStore.

(** C2, as stated, fails on the boundary: at [now = expires] the
    session is still accepted and stays in the store. *)
Lemma isSessionValid_at_expiry_is_valid :
  SESSIONS demo_server !! "ab12" = Some {| createdAt := 0; expires := 3600000 |}
  /\ isSessionValid 3600000 (Some "ab12") demo_server = (true, demo_server)
  /\ ~ (fst (isSessionValid 3600000 (Some "ab12") demo_server) = true <->
        exists s, SESSIONS demo_server !! "ab12" = Some s /\ 3600000 < expires s).
Proof.
  split; [reflexivity|]. split; [reflexivity|].
  intros [H _]. destruct (H eq_refl) as (s & Hs & Hlt).
  vm_compute in Hs. injection Hs as <-. simpl in Hlt. lia.
Qed.

(** C2 (amended): [isSessionValid] answers [true] exactly for a non-empty
    token that is in the store with [now <= expires], and then leaves the
    store alone; it answers [false] for an absent or empty token; and for
    a stored token with [now > expires] it deletes the entry and answers
    [false]. *)
Theorem isSessionValid_spec (now : Z) (id : option string) (st : server) :
  (fst (isSessionValid now id st) = true <->
   exists t s, id = Some t /\ t <> "" /\ SESSIONS st !! t = Some s /\ now <= expires s)
  /\ (fst (isSessionValid now id st) = true -> snd (isSessionValid now id st) = st)
  /\ (id = None \/ id = Some "" -> isSessionValid now id st = (false, st))
  /\ (forall t s, id = Some t -> t <> "" -> SESSIONS st !! t = Some s -> now > expires s ->
      isSessionValid now id st = (false, set_SESSIONS (delete t (SESSIONS st)) st)).
Proof.
  repeat split.
  - intros H. destruct (isSessionValid_true_inv _ _ _ H) as (t & s & ? & ? & ? & ? & _).
    eauto 8.
  - intros (t & s & -> & Ht & Hs & Hle). by rewrite (isSessionValid_live now st t s).
  - intros H. destruct (isSessionValid_true_inv _ _ _ H) as (t & s & _ & _ & _ & _ & ->).
    reflexivity.
  - intros [-> | ->]; reflexivity.
  - intros t s -> Ht Hs Hgt. by apply isSessionValid_stale with s.
Qed.

Lemma isSessionValid_spec_witness :
  isSessionValid 3600001 (Some "ab12") demo_server =
    (false, set_SESSIONS (delete "ab12" (SESSIONS demo_server)) demo_server)
  /\ SESSIONS (snd (isSessionValid 3600001 (Some "ab12") demo_server)) = ∅.
Proof.
  split; [|reflexivity].
  apply (proj2 (proj2 (proj2 (isSessionValid_spec 3600001 (Some "ab12") demo_server)))
           "ab12" {| createdAt := 0; expires := 3600000 |}).
  - reflexivity.
  - discriminate.
  - reflexivity.
  - reflexivity.
Defined.

(** ** Auth gate *)

Lemma key_accepted_iff req st :
  truthy_opt (x_api_key req) && bool_decide (x_api_key req = Some (ADMIN_KEY st)) = true
  <-> key_accepted req st.
Proof.
  unfold key_accepted. rewrite andb_true_iff, bool_decide_eq_true. split.
  - intros [Ht He]. rewrite He in Ht |- *. simpl in Ht.
    exists (ADMIN_KEY st). by rewrite <- truthy_str_true.
  - intros (k & -> & Hk & ->). simpl. by rewrite truthy_str_true.
Qed.

Lemma requireAdminAuth_key now1 now2 req st :
  key_accepted req st -> requireAdminAuth now1 now2 req st = (Returned Next, st).
Proof.
  intros H. apply key_accepted_iff in H. unfold requireAdminAuth. by rewrite H.
Qed.

Lemma requireAdminAuth_session now1 now2 req st t s :
  ~ key_accepted req st ->
  presented_token req = Some t -> t <> "" ->
  SESSIONS st !! t = Some s -> now1 <= expires s ->
  requireAdminAuth now1 now2 req st =
    (Returned Next,
     set_SESSIONS (<[t := {| createdAt := createdAt s;
                             expires := now2 + SESSION_TTL_MS |}]> (SESSIONS st)) st).
Proof.
  intros Hk Hp Ht Hs Hle. unfold requireAdminAuth.
  rewrite <- key_accepted_iff in Hk. apply not_true_is_false in Hk. rewrite Hk.
  unfold presented_token in Hp.
  destruct (cookie_match req) as [m|]; simpl in Hp; [|discriminate].
  rewrite Hp, (isSessionValid_live now1 st t s Ht Hs Hle). simpl. by rewrite Hs.
Qed.

Lemma requireAdminAuth_deny now1 now2 req st :
  ~ key_accepted req st ->
  fst (isSessionValid now1 (presented_token req) st) = false ->
  requireAdminAuth now1 now2 req st =
    (Returned (Denied unauthorized), snd (isSessionValid now1 (presented_token req) st)).
Proof.
  intros Hk Hv. unfold requireAdminAuth.
  rewrite <- key_accepted_iff in Hk. apply not_true_is_false in Hk. rewrite Hk.
  unfold presented_token in *.
  destruct (cookie_match req) as [m|]; simpl in *; [|reflexivity].
  destruct (isSessionValid now1 (cookie_sid m) st) as [v st1]. simpl in *. by subst v.
Qed.

(** C4: the gate lets a request through exactly when its key is the
    configured admin key (and non-empty) or the session token of its
    cookie is valid; a key match leaves the store untouched, a session
    match rewrites that token's expiry to [now_refresh + SESSION_TTL_MS];
    every other request is answered 401 unauthorized. *)
Theorem requireAdminAuth_spec (now_check now_refresh : Z) (req : request) (st : server) :
  let valid := fst (isSessionValid now_check (presented_token req) st) = true in
  (fst (requireAdminAuth now_check now_refresh req st) = Returned Next
     <-> key_accepted req st \/ valid)
  /\ (key_accepted req st ->
      requireAdminAuth now_check now_refresh req st = (Returned Next, st))
  /\ (~ key_accepted req st -> valid ->
      exists t s, presented_token req = Some t /\ SESSIONS st !! t = Some s /\
        requireAdminAuth now_check now_refresh req st =
          (Returned Next,
           set_SESSIONS (<[t := {| createdAt := createdAt s;
                                   expires := now_refresh + SESSION_TTL_MS |}]>
                           (SESSIONS st)) st))
  /\ (~ (key_accepted req st \/ valid) ->
      fst (requireAdminAuth now_check now_refresh req st) = Returned (Denied unauthorized)).
Proof.
  intros valid.
  assert (Hsess : ~ key_accepted req st -> valid ->
      exists t s, presented_token req = Some t /\ SESSIONS st !! t = Some s /\
        requireAdminAuth now_check now_refresh req st =
          (Returned Next,
           set_SESSIONS (<[t := {| createdAt := createdAt s;
                                   expires := now_refresh + SESSION_TTL_MS |}]>
                           (SESSIONS st)) st)).
  { intros Hk Hv. destruct (isSessionValid_true_inv _ _ _ Hv) as (t & s & Hp & Ht & Hs & Hle & _).
    exists t, s. eauto using requireAdminAuth_session. }
  assert (Hdec : key_accepted req st \/ ~ key_accepted req st).
  { rewrite <- key_accepted_iff.
    destruct (truthy_opt (x_api_key req) && bool_decide (x_api_key req = Some (ADMIN_KEY st)));
      [left | right]; congruence. }
  assert (Hdeny : ~ (key_accepted req st \/ valid) ->
      fst (requireAdminAuth now_check now_refresh req st) = Returned (Denied unauthorized)).
  { intros Hn. rewrite requireAdminAuth_deny; [reflexivity | tauto |].
    apply not_true_is_false. tauto. }
  repeat split; try assumption.
  - intros Hnext. destruct Hdec as [Hk|Hk]; [by left | right].
    destruct (fst (isSessionValid now_check (presented_token req) st)) eqn:Hv; [done|].
    rewrite requireAdminAuth_deny in Hnext by (by rewrite ?Hv). discriminate.
  - intros [Hk|Hv].
    + by rewrite requireAdminAuth_key.
    + destruct Hdec as [Hk|Hk]; [by rewrite requireAdminAuth_key|].
      destruct (Hsess Hk Hv) as (t & s & _ & _ & ->). reflexivity.
  - apply requireAdminAuth_key.
Qed.

Lemma requireAdminAuth_spec_witness :
  ~ key_accepted (cookie_request "theme=dark; admin_sid=ab12") demo_server
  /\ requireAdminAuth 1000 1001 (cookie_request "theme=dark; admin_sid=ab12") demo_server =
       (Returned Next,
        set_SESSIONS {[ "ab12" := {| createdAt := 0; expires := 3601001 |} ]} demo_server).
Proof.
  assert (Hk : ~ key_accepted (cookie_request "theme=dark; admin_sid=ab12") demo_server).
  { intros (k & Hk & _). discriminate Hk. }
  split; [exact Hk|].
  destruct (proj1 (proj2 (proj2
              (requireAdminAuth_spec 1000 1001
                 (cookie_request "theme=dark; admin_sid=ab12") demo_server))) Hk eq_refl)
    as (t & s & Ht & Hs & ->).
  injection Ht as <-. injection Hs as <-. reflexivity.
Defined.

(** ** Admin credential *)

Lemma default_panel_password_truthy : truthy_str default_panel_password = true.
Proof. reflexivity. Qed.

Lemma getAdminPassword_total readyState findOne st :
  exists p, getAdminPassword readyState findOne st = Returned p.
Proof.
  unfold getAdminPassword.
  destruct (readyState =? 1); [|eauto].
  destruct findOne as [|e]; simpl; [|eauto].
  destruct (admins st) as [d|]; [|eauto].
  destruct (truthy_str (password d)); eauto.
Qed.

Lemma getAdminPassword_record st d :
  admins st = Some d -> password d <> "" ->
  getAdminPassword 1 DbOk st = Returned (password d).
Proof.
  intros Hd Hp. unfold getAdminPassword. simpl. rewrite Hd.
  apply truthy_str_true in Hp. by rewrite Hp.
Qed.

Lemma getAdminPassword_fallback readyState findOne st :
  readyState <> 1 \/ (exists e, findOne = DbError e) \/ admins st = None ->
  getAdminPassword readyState findOne st = Returned (fallback_password st).
Proof.
  unfold getAdminPassword. intros [H | [[e ->] | H]].
  - apply Z.eqb_neq in H. by rewrite H.
  - by destruct (readyState =? 1).
  - destruct (readyState =? 1); [|done]. destruct findOne; simpl; [|done]. by rewrite H.
Qed.

Lemma getAdminPassword_blank_record readyState findOne st d :
  admins st = Some d -> password d = "" ->
  getAdminPassword readyState findOne st = Returned (fallback_password st).
Proof.
  intros Hd Hp. unfold getAdminPassword.
  destruct (readyState =? 1); [|done]. destruct findOne; simpl; [|done].
  by rewrite Hd, Hp.
Qed.

(** C7: [getAdminPassword] always returns a string and never throws.
    Connected, with the lookup answering the [admin_settings] record (its
    [password] non-empty, as the schema's [required: true] demands), it
    returns that record's password; not connected, or the lookup
    rejecting, or no record, it returns the fallback
    [process.env.ADMIN_PANEL_PASSWORD || '57d3...'], which is never
    empty. (A record whose password is the empty string counts as no
    record.) *)
Theorem getAdminPassword_spec (readyState : Z) (findOne : db_reply) (st : server) :
  (exists p, getAdminPassword readyState findOne st = Returned p)
  /\ (forall d, readyState = 1 -> findOne = DbOk -> admins st = Some d ->
        password d <> "" ->
        getAdminPassword readyState findOne st = Returned (password d))
  /\ (readyState <> 1 \/ (exists e, findOne = DbError e) \/ admins st = None
      \/ (exists d, admins st = Some d /\ password d = "") ->
        getAdminPassword readyState findOne st = Returned (fallback_password st))
  /\ fallback_password st <> "".
Proof.
  split; [apply getAdminPassword_total|]. split; [|split].
  - intros d -> -> Hd Hp. by apply getAdminPassword_record.
  - intros [H | [H | [H | (d & Hd & Hp)]]].
    + apply getAdminPassword_fallback. by left.
    + apply getAdminPassword_fallback. by right; left.
    + apply getAdminPassword_fallback. by right; right.
    + by apply getAdminPassword_blank_record with d.
  - apply truthy_str_true, or_else_truthy, default_panel_password_truthy.
Qed.

Lemma getAdminPassword_spec_witness :
  getAdminPassword 1 DbOk
    (set_admins (Some {| password := "hunter22"; updatedAt := 5000 |}) demo_server)
  = Returned "hunter22"
  /\ getAdminPassword 0 DbOk
       (set_admins (Some {| password := "hunter22"; updatedAt := 5000 |}) demo_server)
     = Returned "admin1234".
Proof.
  pose proof (getAdminPassword_spec 1 DbOk
    (set_admins (Some {| password := "hunter22"; updatedAt := 5000 |}) demo_server))
    as (_ & Hrec & _).
  pose proof (getAdminPassword_spec 0 DbOk
    (set_admins (Some {| password := "hunter22"; updatedAt := 5000 |}) demo_server))
    as (_ & _ & Hfb & _).
  split.
  - apply (Hrec {| password := "hunter22"; updatedAt := 5000 |});
      [reflexivity | reflexivity | reflexivity | discriminate].
  - apply Hfb. left. discriminate.
Defined.

(** ** Changing the password *)

(** The three checks fail, pass, or the comparison of the length throws. *)
Lemma validation_dec b expected :
  fails_validation b expected \/ passes_validation b expected
  \/ (truthy (b_currentPassword b) = true /\ truthy (b_newPassword b) = true
      /\ strict_eq_str (b_currentPassword b) expected = true
      /\ exists e, length_lt_6 (b_newPassword b) = Thrown e).
Proof.
  unfold fails_validation, passes_validation.
  destruct (truthy (b_currentPassword b)); [|by left; left].
  destruct (truthy (b_newPassword b)) eqn:Hn; [|by left; right; left].
  destruct (strict_eq_str (b_currentPassword b) expected); [|by left; right; right; left].
  destruct (length_lt_6 (b_newPassword b)) as [[|]|e];
    [left | right; left | right; right]; eauto 6.
Qed.

Lemma validation_exclusive b expected :
  fails_validation b expected -> passes_validation b expected -> False.
Proof.
  intros [H|[H|[H|H]]] (H1 & H2 & H3 & H4); congruence.
Qed.

Section ChangePassword.

Variables (w : change_world) (req : request) (st : server).
Variables (b : reqbody) (expected : string).
Hypothesis Hbody : body req = Some b.
Hypothesis Hexpected :
  getAdminPassword (c_readyState_lookup w) (c_findOne w) st = Returned expected.

Lemma changePassword_rejected :
  fails_validation b expected ->
  snd (changePassword w req st) = st /\
  set_cookie (fst (changePassword w req st)) = CookieKeep /\
  (status (fst (changePassword w req st)) = 400 \/
   status (fst (changePassword w req st)) = 401).
Proof.
  intros Hf. unfold changePassword. rewrite Hbody, Hexpected.
  destruct (truthy (b_currentPassword b)) eqn:Hc; simpl; [|auto].
  destruct (truthy (b_newPassword b)) eqn:Hn; simpl; [|auto].
  destruct (strict_eq_str (b_currentPassword b) expected) eqn:He; simpl; [|auto].
  destruct Hf as [Hf|[Hf|[Hf|Hf]]]; try congruence.
  rewrite Hf. auto.
Qed.

Lemma changePassword_accepted p :
  passes_validation b expected ->
  to_string (b_newPassword b) = Returned p ->
  changePassword w req st = (password_changed, after_change w (b_newPassword b) p st).
Proof.
  intros (Hc & Hn & He & Hl) Hp. unfold changePassword.
  rewrite Hbody, Hexpected, Hc, Hn, He, Hl, Hp. simpl.
  unfold password_changed, after_change, Admin_findOneAndUpdate.
  destruct (c_readyState_persist w =? 1), (cast_string (b_newPassword b)),
    (c_findOneAndUpdate w); reflexivity.
Qed.

(** The conversion for [process.env] throws: nothing has been written yet. *)
Lemma changePassword_unconvertible e :
  passes_validation b expected ->
  to_string (b_newPassword b) = Thrown e ->
  changePassword w req st = (internal_error, st).
Proof.
  intros (Hc & Hn & He & Hl) Hp. unfold changePassword.
  by rewrite Hbody, Hexpected, Hc, Hn, He, Hl, Hp.
Qed.

(** The comparison of the length throws: likewise. *)
Lemma changePassword_length_throws e :
  truthy (b_currentPassword b) = true -> truthy (b_newPassword b) = true ->
  strict_eq_str (b_currentPassword b) expected = true ->
  length_lt_6 (b_newPassword b) = Thrown e ->
  changePassword w req st = (internal_error, st).
Proof.
  intros Hc Hn He Hl. unfold changePassword.
  by rewrite Hbody, Hexpected, Hc, Hn, He, Hl.
Qed.

End ChangePassword.

Lemma changePassword_no_body w req st :
  body req = None -> changePassword w req st = (internal_error, st).
Proof. intros H. unfold changePassword. by rewrite H. Qed.

(** Whatever the request, a reply other than 200 leaves the state alone,
    and a 200 comes from a call that passed the three checks and whose
    new password converted to a string. *)
Lemma changePassword_cases w req st :
  changePassword w req st = (internal_error, st)
  \/ (exists b expected,
        body req = Some b /\
        getAdminPassword (c_readyState_lookup w) (c_findOne w) st = Returned expected /\
        (fails_validation b expected /\ snd (changePassword w req st) = st /\
           status (fst (changePassword w req st)) <> 200
         \/ exists p,
              passes_validation b expected /\
              to_string (b_newPassword b) = Returned p /\
              changePassword w req st
              = (password_changed, after_change w (b_newPassword b) p st))).
Proof.
  destruct (body req) as [b|] eqn:Hb; [|left; by rewrite changePassword_no_body].
  destruct (getAdminPassword_total (c_readyState_lookup w) (c_findOne w) st) as [expected He].
  destruct (validation_dec b expected) as [Hf | [Hp | (Hc & Hn & Hs & e & Hl)]].
  - right. exists b, expected. split; [done|]. split; [done|]. left.
    destruct (changePassword_rejected w req st b expected Hb He Hf) as (? & _ & Hs).
    repeat split; try done. destruct Hs as [-> | ->]; lia.
  - destruct (to_string (b_newPassword b)) as [p|e] eqn:Hstr.
    + right. exists b, expected. split; [done|]. split; [done|]. right. exists p.
      split; [done|]. split; [done|].
      exact (changePassword_accepted w req st b expected Hb He p Hp Hstr).
    + left. exact (changePassword_unconvertible w req st b expected Hb He e Hp Hstr).
  - left. exact (changePassword_length_throws w req st b expected Hb He e Hc Hn Hs Hl).
Qed.

(** The gate never throws: it lets the request through or answers 401. *)
Lemma requireAdminAuth_cases now1 now2 req st :
  (exists st', requireAdminAuth now1 now2 req st = (Returned Next, st'))
  \/ (exists st', requireAdminAuth now1 now2 req st = (Returned (Denied unauthorized), st')).
Proof.
  destruct (truthy_opt (x_api_key req) && bool_decide (x_api_key req = Some (ADMIN_KEY st)))
    eqn:Hk.
  - left. exists st. apply requireAdminAuth_key. by apply key_accepted_iff.
  - assert (Hn : ~ key_accepted req st) by (rewrite <- key_accepted_iff; congruence).
    destruct (fst (isSessionValid now1 (presented_token req) st)) eqn:Hv.
    + left. destruct (isSessionValid_true_inv _ _ _ Hv) as (t & s & Hp & Ht & Hs & Hle & _).
      eexists. by apply requireAdminAuth_session with (s := s).
    + right. eexists. by apply requireAdminAuth_deny.
Qed.

(** C1, as stated, fails: with the upsert rejecting, the handler answers
    200 and [process.env.ADMIN_PANEL_PASSWORD] already holds the new
    password, while no record was written. *)
Lemma changePassword_swallows_persist_failure :
  let r := changePassword world_upsert_rejects demo_change demo_server in
  status (fst r) = 200
  /\ ADMIN_PANEL_PASSWORD (env demo_server) = Some "admin1234"
  /\ ADMIN_PANEL_PASSWORD (env (snd r)) = Some "hunter22"
  /\ admins (snd r) = None
  /\ ~ (status (fst r) <> 200 /\ env (snd r) = env demo_server).
Proof.
  vm_compute. repeat split; try reflexivity. intros [H _]. by apply H.
Qed.

(** C1 (amended): when a call passes the checks with a new password that
    is a string without NUL characters, and the persist fails, the
    failure is only logged: the handler still answers 200, it has
    already stored the new password in [process.env.ADMIN_PANEL_PASSWORD],
    the [admin_settings] record is as before, and all sessions are gone. *)
Theorem changePassword_persist_failure
    (w : change_world) (req : request) (st : server) (b : reqbody)
    (expected s : string) :
  body req = Some b ->
  getAdminPassword (c_readyState_lookup w) (c_findOne w) st = Returned expected ->
  passes_validation b expected ->
  b_newPassword b = Str s -> nul_free s ->
  persist_fails w ->
  fst (changePassword w req st) = password_changed
  /\ ADMIN_PANEL_PASSWORD (env (snd (changePassword w req st))) = Some s
  /\ admins (snd (changePassword w req st)) = admins st
  /\ SESSIONS (snd (changePassword w req st)) = ∅
  /\ submissions (snd (changePassword w req st)) = submissions st
  /\ ADMIN_KEY (snd (changePassword w req st)) = ADMIN_KEY st.
Proof.
  intros Hb He Hp Hs Hnul Hf.
  rewrite (changePassword_accepted w req st b expected Hb He s Hp) by by rewrite Hs.
  unfold after_change. rewrite Hs. simpl. rewrite (c_string_nul_free s Hnul).
  repeat split.
  destruct Hf as [Hf | [e ->]]; [|reflexivity].
  apply Z.eqb_neq in Hf. rewrite Hf. by destruct (c_findOneAndUpdate w).
Qed.

Lemma changePassword_persist_failure_witness :
  fst (changePassword world_upsert_rejects demo_change demo_server) = password_changed
  /\ ADMIN_PANEL_PASSWORD (env (snd (changePassword world_upsert_rejects demo_change
                                       demo_server))) = Some "hunter22"
  /\ admins (snd (changePassword world_upsert_rejects demo_change demo_server)) = None.
Proof.
  destruct (changePassword_persist_failure world_upsert_rejects demo_change demo_server
              (change_body (Str "admin1234") (Str "hunter22")) "admin1234" "hunter22"
              eq_refl eq_refl (conj eq_refl (conj eq_refl (conj eq_refl eq_refl)))
              eq_refl eq_refl (or_intror (ex_intro _ _ eq_refl)))
    as (Hok & Henv & Hadm & _).
  split; [exact Hok|]. split; [exact Henv | exact Hadm].
Defined.

(** C10: a call that fails one of the checks is answered 400 or 401 and
    the state after it is the state before it: environment password,
    [admin_settings] record and sessions alike. *)
Theorem changePassword_invalid_unchanged
    (w : change_world) (req : request) (st : server) (b : reqbody) (expected : string) :
  body req = Some b ->
  getAdminPassword (c_readyState_lookup w) (c_findOne w) st = Returned expected ->
  fails_validation b expected ->
  snd (changePassword w req st) = st
  /\ (truthy (b_currentPassword b) = false \/ truthy (b_newPassword b) = false ->
      fst (changePassword w req st) = respond 400 (PError "Current and new password required"))
  /\ (truthy (b_currentPassword b) = true -> truthy (b_newPassword b) = true ->
      strict_eq_str (b_currentPassword b) expected = false ->
      fst (changePassword w req st) = respond 401 (PError "Current password is incorrect"))
  /\ (truthy (b_currentPassword b) = true -> truthy (b_newPassword b) = true ->
      strict_eq_str (b_currentPassword b) expected = true ->
      length_lt_6 (b_newPassword b) = Returned true ->
      fst (changePassword w req st) =
        respond 400 (PError "New password must be at least 6 characters")).
Proof.
  intros Hb He Hf. split; [by apply (changePassword_rejected w req st b expected)|].
  unfold changePassword. rewrite Hb, He. repeat split.
  - intros [-> | ->]; [reflexivity|]. by rewrite orb_true_r.
  - intros -> -> ->. reflexivity.
  - intros -> -> -> ->. reflexivity.
Qed.

Lemma changePassword_invalid_unchanged_witness :
  changePassword world_upsert_rejects
    {| x_api_key := None; cookie := None;
       body := Some (change_body (Str "admin1234") (Str "abc")) |} demo_server
  = (respond 400 (PError "New password must be at least 6 characters"), demo_server).
Proof.
  pose proof (changePassword_invalid_unchanged world_upsert_rejects
    {| x_api_key := None; cookie := None;
       body := Some (change_body (Str "admin1234") (Str "abc")) |} demo_server
    (change_body (Str "admin1234") (Str "abc")) "admin1234"
    eq_refl eq_refl (or_intror (or_intror (or_intror eq_refl)))) as (Hst & _ & _ & Hshort).
  apply injective_projections; [apply Hshort; reflexivity | exact Hst].
Defined.

(** The handler never writes a blank password into [admin_settings]:
    the new password is truthy, so a string is not empty; for a value
    that is not a string this rests on its cast not being empty. *)
Lemma changePassword_record_not_blank w req st :
  (forall d, admins st = Some d -> password d <> "") ->
  (forall b o q, body req = Some b -> b_newPassword b = Other o ->
                 o_cast o = Returned q -> q <> "") ->
  forall d, admins (snd (changePassword w req st)) = Some d -> password d <> "".
Proof.
  intros Hst Hother d.
  destruct (changePassword_cases w req st)
    as [-> | (b & e & Hb & _ & [(_ & -> & _) | (p & (_ & Hn & _ & _) & _ & ->)])];
    simpl; try apply Hst.
  destruct (cast_string (b_newPassword b)) as [q|] eqn:Hq; [|apply Hst].
  assert (Hnew : q <> "").
  { destruct (b_newPassword b) as [|s|o] eqn:Hv; simpl in *.
    - discriminate.
    - injection Hq as <-. by apply truthy_str_true.
    - by apply (Hother b o q). }
  destruct (c_findOneAndUpdate w); [|apply Hst].
  destruct (c_readyState_persist w =? 1); [|apply Hst].
  by intros [= <-].
Qed.

(** Through the whole route, a call that passes the gate and fails a
    check leaves the state as the gate left it. *)
Lemma changePassword_route_invalid now_check now_refresh w req st st1 b expected :
  requireAdminAuth now_check now_refresh req st = (Returned Next, st1) ->
  body req = Some b ->
  getAdminPassword (c_readyState_lookup w) (c_findOne w) st1 = Returned expected ->
  fails_validation b expected ->
  snd (changePassword_route now_check now_refresh w req st) = st1.
Proof.
  intros Hauth Hb He Hf. unfold changePassword_route. rewrite Hauth. simpl.
  by apply (changePassword_rejected w req st1 b expected).
Qed.

(** C5: a 200 from POST /admin/change-password means [SESSIONS.clear()]
    ran last: the store is empty, so no token, whatever it was before the
    call, is valid after it. *)
Theorem changePassword_clears_sessions
    (now_check now_refresh : Z) (w : change_world) (req : request) (st : server) :
  status (fst (changePassword_route now_check now_refresh w req st)) = 200 ->
  SESSIONS (snd (changePassword_route now_check now_refresh w req st)) = ∅
  /\ forall now id,
       fst (isSessionValid now id
              (snd (changePassword_route now_check now_refresh w req st))) = false.
Proof.
  intros Hok.
  assert (Hempty : SESSIONS (snd (changePassword_route now_check now_refresh w req st)) = ∅).
  { revert Hok. unfold changePassword_route.
    destruct (requireAdminAuth_cases now_check now_refresh req st) as [[st1 ->] | [st1 ->]];
      simpl; [|discriminate].
    destruct (changePassword_cases w req st1)
      as [-> | (b & e & _ & _ & [(_ & _ & Hs) | (p & _ & _ & ->)])]; simpl; try done. }
  split; [exact Hempty|].
  intros now [t|]; [|reflexivity].
  rewrite isSessionValid_unknown; [reflexivity|]. by rewrite Hempty.
Qed.

Lemma changePassword_clears_sessions_witness :
  let st' := snd (changePassword_route 1000 1001 world_upsert_rejects demo_change demo_server) in
  fst (isSessionValid 1000 (Some "ab12") demo_server) = true
  /\ SESSIONS st' = ∅
  /\ fst (isSessionValid 1002 (Some "ab12") st') = false.
Proof.
  destruct (changePassword_clears_sessions 1000 1001 world_upsert_rejects demo_change
              demo_server eq_refl) as [He Hv].
  split; [reflexivity|]. split; [exact He | apply Hv].
Defined.

(** ** Logout *)

Lemma logout_sessions req st :
  SESSIONS (snd (logout req st)) =
    match presented_token req with
    | Some t => if truthy_str t then delete t (SESSIONS st) else SESSIONS st
    | None => SESSIONS st
    end.
Proof.
  unfold logout, presented_token. simpl.
  destruct (cookie_match req) as [m|]; simpl; [|reflexivity].
  destruct (cookie_sid m) as [t|]; [|reflexivity].
  destruct (truthy_str t); simpl; [|reflexivity].
  case_bool_decide as Hin; simpl; [reflexivity|].
  symmetry. apply delete_id. by apply eq_None_not_Some.
Qed.

Lemma server_eq_sessions (st st' : server) :
  env st' = env st -> ADMIN_KEY st' = ADMIN_KEY st -> admins st' = admins st ->
  submissions st' = submissions st -> SESSIONS st' = SESSIONS st -> st' = st.
Proof. destruct st, st'. simpl. by intros -> -> -> -> ->. Qed.

Lemma logout_frame req st :
  env (snd (logout req st)) = env st /\ ADMIN_KEY (snd (logout req st)) = ADMIN_KEY st /\
  admins (snd (logout req st)) = admins st /\
  submissions (snd (logout req st)) = submissions st.
Proof.
  unfold logout. simpl.
  destruct (cookie_match req) as [m|]; [|done].
  destruct (cookie_sid m) as [t|]; [|done].
  by destruct (truthy_str t && bool_decide (is_Some (SESSIONS st !! t))).
Qed.

Lemma logout_token_gone req st t :
  presented_token req = Some t -> t <> "" -> SESSIONS (snd (logout req st)) !! t = None.
Proof.
  intros Hp Ht. rewrite logout_sessions, Hp.
  apply truthy_str_true in Ht. rewrite Ht. apply lookup_delete_eq.
Qed.

Lemma logout_absent req st :
  (forall t, presented_token req = Some t -> t <> "" -> SESSIONS st !! t = None) ->
  snd (logout req st) = st.
Proof.
  intros H. destruct (logout_frame req st) as (? & ? & ? & ?).
  apply server_eq_sessions; try done. rewrite logout_sessions.
  destruct (presented_token req) as [t|]; [|done].
  destruct (truthy_str t) eqn:Ht; [|done].
  apply delete_id, H; [done|]. by apply truthy_str_true.
Qed.

Lemma logout_idempotent req st :
  logout req (snd (logout req st)) = logout req st.
Proof.
  apply injective_projections; [reflexivity|].
  apply logout_absent. intros t Hp Ht. by apply logout_token_gone.
Qed.

Lemma logout_times_S n req st :
  logout_times (S n) req st = snd (logout req st).
Proof.
  revert st. induction n as [|n IH]; intros st; [reflexivity|].
  change (logout_times (S (S n)) req st) with (logout_times (S n) req (snd (logout req st))).
  by rewrite IH, logout_idempotent.
Qed.

(** C8: logout always answers 200 [{ok: true}] and clears the cookie,
    with or without a token and whether or not the token is in the store
    or expired; a token that is not in the store leaves the state as it
    is; doing it again changes nothing; and after one or more logouts
    the presented token is not valid at any time. *)
Theorem logout_spec (req : request) (st : server) :
  fst (logout req st) = logged_out
  /\ ((forall t, presented_token req = Some t -> SESSIONS st !! t = None) ->
      logout req st = (logged_out, st))
  /\ logout req (snd (logout req st)) = logout req st
  /\ (forall n now,
        fst (isSessionValid now (presented_token req) (logout_times (S n) req st)) = false).
Proof.
  split; [reflexivity|]. split; [|split].
  - intros H. apply injective_projections; [reflexivity|].
    apply logout_absent. auto.
  - apply logout_idempotent.
  - intros n now. rewrite logout_times_S.
    destruct (presented_token req) as [t|] eqn:Hp; [|reflexivity].
    destruct (String.eqb_spec t "") as [->|Ht]; [reflexivity|].
    rewrite isSessionValid_unknown; [reflexivity|]. by apply logout_token_gone.
Qed.

Lemma logout_spec_witness :
  fst (isSessionValid 5 (Some "ab12") demo_server) = true
  /\ fst (isSessionValid 5 (Some "ab12")
            (logout_times 3 (cookie_request "admin_sid=ab12") demo_server)) = false
  /\ logout (cookie_request "admin_sid=0000") demo_server = (logged_out, demo_server).
Proof.
  split; [reflexivity|]. split.
  - apply (proj2 (proj2 (proj2 (logout_spec (cookie_request "admin_sid=ab12") demo_server)))
             2%nat 5).
  - apply (proj1 (proj2 (logout_spec (cookie_request "admin_sid=0000") demo_server))).
    intros t Ht. injection Ht as <-. reflexivity.
Defined.

(** ** No way back for a token that left the store *)

Lemma isSessionValid_dom now id st :
  dom (SESSIONS (snd (isSessionValid now id st))) ⊆ dom (SESSIONS st).
Proof.
  unfold isSessionValid. destruct id as [t|]; [|done].
  destruct (negb (truthy_str t)); [done|].
  destruct (SESSIONS st !! t) as [s|]; [|done].
  destruct (now >? expires s); [|done].
  simpl. rewrite dom_delete_L. by apply subseteq_difference_l.
Qed.

Lemma requireAdminAuth_dom now1 now2 req st :
  dom (SESSIONS (snd (requireAdminAuth now1 now2 req st))) ⊆ dom (SESSIONS st).
Proof.
  unfold requireAdminAuth.
  destruct (truthy_opt (x_api_key req) && bool_decide (x_api_key req = Some (ADMIN_KEY st)));
    [done|].
  destruct (cookie_match req) as [m|]; [|done].
  pose proof (isSessionValid_dom now1 (cookie_sid m) st) as Hd.
  destruct (isSessionValid now1 (cookie_sid m) st) as [v st1]. simpl in Hd.
  destruct v; simpl; [|done].
  destruct (cookie_sid m) as [t|]; [|done].
  destruct (SESSIONS st1 !! t) as [s|] eqn:Hs; [|done].
  simpl. by rewrite dom_insert_lookup_L.
Qed.

Lemma changePassword_dom w req st :
  dom (SESSIONS (snd (changePassword w req st))) ⊆ dom (SESSIONS st).
Proof.
  destruct (changePassword_cases w req st)
    as [-> | (b & e & _ & _ & [(_ & -> & _) | (p & _ & _ & ->)])]; simpl; done.
Qed.

Lemma contact_sessions w req st : SESSIONS (snd (contact w req st)) = SESSIONS st.
Proof.
  unfold contact.
  destruct (negb (truthy (body_field b_email req)) || negb (truthy (body_field b_name req)));
    [done|].
  destruct (call_trim (body_field b_name req)); simpl; [|done].
  destruct (trim_or_empty (body_field b_company req)); simpl; [|done].
  destruct (call_trim (body_field b_email req)); simpl; [|done].
  destruct (trim_or_empty (body_field b_message req)); simpl; [|done].
  by destruct (k_save w).
Qed.

(** A login stores the token it was given, if any, and nothing else. *)
Lemma verify_sessions w req st :
  SESSIONS (snd (verify w req st)) = SESSIONS st
  \/ exists id,
       v_randomBytes w = Returned id /\
       SESSIONS (snd (verify w req st)) =
         <[id := {| createdAt := v_now w; expires := v_now w + SESSION_TTL_MS |}]>
           (SESSIONS st).
Proof.
  unfold verify.
  destruct (getAdminPassword (v_readyState w) (v_findOne w) st) as [expected|]; [|by left].
  match goal with |- context [if ?c then _ else _] => destruct c end; [|by left].
  destruct (v_randomBytes w) as [id|]; [right | by left]. by exists id.
Qed.

Lemma absent_of_dom (m m' : gmap string session) t :
  dom m' ⊆ dom m -> m !! t = None -> m' !! t = None.
Proof.
  intros Hsub Habs. apply not_elem_of_dom. intros Hin.
  apply Hsub in Hin. by apply not_elem_of_dom in Habs.
Qed.

Lemma step_absent t o st :
  ~ mints t o -> SESSIONS st !! t = None -> SESSIONS (step o st) !! t = None.
Proof.
  intros Hm Habs. destruct o; cbn [step].
  - eapply absent_of_dom; [apply isSessionValid_dom | done].
  - eapply absent_of_dom; [apply requireAdminAuth_dom | done].
  - rewrite logout_sessions. destruct (presented_token req) as [t'|]; [|done].
    destruct (truthy_str t'); [|done].
    eapply absent_of_dom; [|done]. rewrite dom_delete_L. by apply subseteq_difference_l.
  - unfold changePassword_route.
    pose proof (requireAdminAuth_dom now_check now_refresh req st) as Hd.
    destruct (requireAdminAuth now_check now_refresh req st) as [[[|r]|e] st1]; simpl in *;
      try (by eapply absent_of_dom).
    eapply absent_of_dom; [|done]. etrans; [apply changePassword_dom | done].
  - by rewrite contact_sessions.
  - destruct (verify_sessions w req st) as [-> | (id & Hid & ->)]; [done|].
    rewrite lookup_insert_ne; [done|]. intros ->. by apply Hm.
Qed.

Lemma run_absent t ops st :
  Forall (fun o => ~ mints t o) ops ->
  SESSIONS st !! t = None -> SESSIONS (run ops st) !! t = None.
Proof.
  intros Hops. revert st. induction Hops as [|o ops Ho _ IH]; intros st Habs; simpl; [done|].
  by apply IH, step_absent.
Qed.

(** A login that hands out a cookie has stored its token. *)
Lemma verify_creates_session w req st id maxAge :
  set_cookie (fst (verify w req st)) = CookieSet id maxAge ->
  v_randomBytes w = Returned id /\
  snd (verify w req st) =
    set_SESSIONS (<[id := {| createdAt := v_now w;
                             expires := v_now w + SESSION_TTL_MS |}]> (SESSIONS st)) st.
Proof.
  unfold verify.
  destruct (getAdminPassword (v_readyState w) (v_findOne w) st) as [expected|]; [|discriminate].
  match goal with |- context [if ?c then _ else _] => destruct c end; [|discriminate].
  destruct (v_randomBytes w) as [id'|]; simpl; [|discriminate].
  by intros [= -> _].
Qed.

(** C6: a token that is not in the store (lazily expired, logged out or
    cleared) stays out of it, and so is valid at no time, under every
    sequence of validity checks, gate passes with their expiry refresh,
    logouts, password changes, contact posts and logins that mint other
    tokens; what puts a token in the store is a login that sets the
    cookie, and that token is valid at the time of the login. *)
Theorem evicted_token_stays_invalid (t : string) (ops : list op) (st : server) :
  SESSIONS st !! t = None ->
  Forall (fun o => ~ mints t o) ops ->
  SESSIONS (run ops st) !! t = None
  /\ (forall now, fst (isSessionValid now (Some t) (run ops st)) = false)
  /\ (forall w req maxAge,
        t <> "" ->
        set_cookie (fst (verify w req (run ops st))) = CookieSet t maxAge ->
        mints t (OpVerify w req) /\
        fst (isSessionValid (v_now w) (Some t) (snd (verify w req (run ops st)))) = true).
Proof.
  intros Habs Hops.
  assert (Hout : SESSIONS (run ops st) !! t = None) by (by apply run_absent).
  split; [exact Hout|]. split.
  - intros now. by rewrite isSessionValid_unknown.
  - intros w req maxAge Ht Hc.
    destruct (verify_creates_session _ _ _ _ _ Hc) as [Hr ->]. split; [exact Hr|].
    erewrite isSessionValid_live; [reflexivity | exact Ht | apply lookup_insert_eq |].
    simpl. unfold SESSION_TTL_MS. lia.
Qed.

Lemma evicted_token_stays_invalid_witness :
  let st := snd (logout (cookie_request "theme=dark; admin_sid=ab12") demo_server) in
  let ops := [OpAuthorize 10 11 (cookie_request "admin_sid=ab12");
              OpIsValid 12 (Some "ab12");
              OpVerify {| v_readyState := 1; v_findOne := DbOk;
                          v_randomBytes := Returned "cd34"; v_now := 12 |}
                       {| x_api_key := None; cookie := None;
                          body := Some (login_body (Str "admin1234")) |};
              OpLogout (cookie_request "admin_sid=ab12")] in
  fst (isSessionValid 5 (Some "ab12") demo_server) = true
  /\ SESSIONS st !! "ab12" = None
  /\ fst (isSessionValid 13 (Some "ab12") (run ops st)) = false.
Proof.
  intros st ops. split; [reflexivity|]. split; [reflexivity|].
  apply (evicted_token_stays_invalid "ab12" ops st).
  - reflexivity.
  - repeat constructor; simpl; try tauto. discriminate.
Defined.

(** ** Startup configuration *)

(** C9: only the connection string is enforced. The process exits
    exactly when [MONGODB_URI] is unset or empty; with neither
    [ADMIN_API_KEY] nor [ADMIN_PANEL_PASSWORD] set it starts all the
    same, the gate then opens for the key [dev-secret] and the login for
    the built-in password. *)
Theorem startup_runs_on_built_in_secrets :
  (forall e a s, startup e a s = None <-> truthy_opt (MONGODB_URI e) = false)
  /\ exists st,
       startup env_without_admin_secrets None [] = Some st
       /\ ADMIN_KEY st = "dev-secret"
       /\ requireAdminAuth 0 0
            {| x_api_key := Some "dev-secret"; cookie := None; body := None |} st
          = (Returned Next, st)
       /\ getAdminPassword 1 DbOk st = Returned "57d3e160e7b006b0359fa54440799a6b"
       /\ fst (verify {| v_readyState := 1; v_findOne := DbOk;
                         v_randomBytes := Returned "c0ffee"; v_now := 0 |}
                 {| x_api_key := None; cookie := None;
                    body := Some (login_body (Str "57d3e160e7b006b0359fa54440799a6b")) |} st)
          = {| status := 200; json := POk; set_cookie := CookieSet "c0ffee" 3600000 |}.
Proof.
  split.
  - intros e a s. unfold startup. destruct (truthy_opt (MONGODB_URI e)); simpl; split; done.
  - eexists. split; [reflexivity|]. repeat split; reflexivity.
Qed.

(** ** Contact form *)

(** C3, as stated, fails. A name that is empty only after trimming
    passes the check, is trimmed to the empty string and saved (201), or
    meets a rejecting save (500); it is not answered 400. And a request
    whose name and email are not empty is answered 500, with nothing
    stored, when the save rejects. *)
Lemma contact_blank_name_not_rejected :
  let w_ok := {| k_objectId := "65f0c0ffee"; k_save := DbOk |} in
  let w_ko := {| k_objectId := "65f0c0ffee"; k_save := DbError "buffering timed out" |} in
  trim "   " = ""
  /\ contact w_ok blank_name_request demo_server =
       (respond 201 (PCreated "65f0c0ffee"),
        add_submission {| sub_id := "65f0c0ffee"; sub_name := ""; sub_company := "";
                          sub_email := "a@b.com"; sub_message := "" |} demo_server)
  /\ contact w_ko blank_name_request demo_server = (internal_error, demo_server)
  /\ ~ (status (fst (contact w_ok blank_name_request demo_server)) = 400
        <-> trim "   " = "" \/ trim "a@b.com" = "")
  /\ ~ (status (fst (contact w_ko blank_name_request demo_server)) = 400
        <-> trim "   " = "" \/ trim "a@b.com" = "")
  /\ trim "Ada" <> "" /\ trim "a@b.com" <> ""
  /\ contact w_ko named_request demo_server = (internal_error, demo_server).
Proof.
  repeat split; try reflexivity; try discriminate.
  - intros [_ H]. specialize (H (or_introl eq_refl)). discriminate H.
  - intros [_ H]. specialize (H (or_introl eq_refl)). discriminate H.
Qed.

Lemma trim_nonempty s : trim s <> "" -> s <> "".
Proof. intros H ->. by apply H. Qed.

Lemma contact_missing w req st :
  truthy (body_field b_email req) = false \/ truthy (body_field b_name req) = false ->
  contact w req st = (bad_request, st).
Proof.
  intros H. unfold contact.
  destruct H as [-> | ->]; [reflexivity|]. by rewrite orb_true_r.
Qed.

Lemma contact_text w req st n e c m :
  body_field b_name req = Str n -> n <> "" ->
  body_field b_email req = Str e -> e <> "" ->
  trim_or_empty (body_field b_company req) = Returned c ->
  trim_or_empty (body_field b_message req) = Returned m ->
  contact w req st =
    match k_save w with
    | DbOk =>
        (respond 201 (PCreated (k_objectId w)),
         add_submission {| sub_id := k_objectId w; sub_name := trim n; sub_company := c;
                           sub_email := trim e; sub_message := m |} st)
    | DbError _ => (internal_error, st)
    end.
Proof.
  intros Hname Hn Hemail He Hc Hm. unfold contact.
  rewrite Hname, Hemail, Hc, Hm. simpl.
  apply truthy_str_true in Hn, He. rewrite Hn, He. simpl.
  by destruct (k_save w).
Qed.

(** The shapes an answer of the handler can take. *)
Lemma contact_cases w req st :
  contact w req st = (bad_request, st)
  \/ contact w req st = (internal_error, st)
  \/ exists n e c m,
       body_field b_name req = Str n /\ body_field b_email req = Str e /\
       trim_or_empty (body_field b_company req) = Returned c /\
       trim_or_empty (body_field b_message req) = Returned m /\
       contact w req st =
         (respond 201 (PCreated (k_objectId w)),
          add_submission {| sub_id := k_objectId w; sub_name := trim n; sub_company := c;
                            sub_email := trim e; sub_message := m |} st).
Proof.
  unfold contact.
  destruct (negb (truthy (body_field b_email req)) || negb (truthy (body_field b_name req)));
    [by left|].
  destruct (body_field b_name req) as [|n|o]; simpl; [by right; left | | by right; left].
  destruct (trim_or_empty (body_field b_company req)) as [c|]; simpl; [|by right; left].
  destruct (body_field b_email req) as [|e|o]; simpl; [by right; left | | by right; left].
  destruct (trim_or_empty (body_field b_message req)) as [m|]; simpl; [|by right; left].
  destruct (k_save w); [|by right; left].
  right; right. by exists n, e, c, m.
Qed.

(** C3 (amended): a request whose name or email is missing or empty is
    answered 400 and nothing is stored. A request whose name and email
    are text that is not empty after trimming, with company and
    message text or falsy, stores the record with the trimmed name,
    email, company and message (empty when falsy) and the generated id
    and answers 201 with that id when the save succeeds, and answers 500
    and stores nothing when the save rejects. Whatever is stored carries
    trimmed fields, and every answer other than 201 stores nothing. *)
Theorem contact_spec (w : contact_world) (req : request) (st : server) :
  (truthy (body_field b_name req) = false \/ truthy (body_field b_email req) = false ->
   contact w req st = (bad_request, st))
  /\ (forall n e c m,
        body_field b_name req = Str n -> trim n <> "" ->
        body_field b_email req = Str e -> trim e <> "" ->
        trim_or_empty (body_field b_company req) = Returned c ->
        trim_or_empty (body_field b_message req) = Returned m ->
        contact w req st =
          match k_save w with
          | DbOk =>
              (respond 201 (PCreated (k_objectId w)),
               add_submission {| sub_id := k_objectId w; sub_name := trim n;
                                 sub_company := c; sub_email := trim e;
                                 sub_message := m |} st)
          | DbError _ => (internal_error, st)
          end)
  /\ (status (fst (contact w req st)) = 201 ->
      exists n e c m,
        body_field b_name req = Str n /\ body_field b_email req = Str e /\
        trim_or_empty (body_field b_company req) = Returned c /\
        trim_or_empty (body_field b_message req) = Returned m /\
        contact w req st =
          (respond 201 (PCreated (k_objectId w)),
           add_submission {| sub_id := k_objectId w; sub_name := trim n; sub_company := c;
                             sub_email := trim e; sub_message := m |} st))
  /\ (status (fst (contact w req st)) <> 201 -> snd (contact w req st) = st).
Proof.
  split; [|split; [|split]].
  - intros H. apply contact_missing. tauto.
  - intros n e c m Hname Hn Hemail He. apply contact_text; auto using trim_nonempty.
  - destruct (contact_cases w req st) as [-> | [-> | H]]; [discriminate | discriminate | done].
  - destruct (contact_cases w req st) as [-> | [-> | (n & e & c & m & _ & _ & _ & _ & ->)]];
      simpl; done.
Qed.

Lemma contact_spec_witness :
  contact {| k_objectId := "65f0c0ffee"; k_save := DbOk |}
    {| x_api_key := None; cookie := None;
       body := Some (contact_body (Str " Ada ") (Str "ada@example.com ")
                                  Undefined (Str "  hello  ")) |}
    demo_server
  = (respond 201 (PCreated "65f0c0ffee"),
     add_submission {| sub_id := "65f0c0ffee"; sub_name := "Ada"; sub_company := "";
                       sub_email := "ada@example.com"; sub_message := "hello" |}
       demo_server).
Proof.
  apply (proj1 (proj2
           (contact_spec {| k_objectId := "65f0c0ffee"; k_save := DbOk |}
              {| x_api_key := None; cookie := None;
                 body := Some (contact_body (Str " Ada ") (Str "ada@example.com ")
                                            Undefined (Str "  hello  ")) |}
              demo_server))
           " Ada " "ada@example.com " "" "hello");
    (reflexivity || discriminate).
Defined.

(** * Further properties of the handlers *)

(** ** Strings: splitting, trimming, prefixes *)

Lemma all_chars_app p a b :
  all_chars p (a +:+ b) = all_chars p a && all_chars p b.
Proof. induction a as [|c a IH]; simpl; [done|]. by rewrite IH, andb_assoc. Qed.

Lemma all_chars_impl (p q : ascii -> bool) s :
  (forall c, p c = true -> q c = true) -> all_chars p s = true -> all_chars q s = true.
Proof.
  intros Hpq. induction s as [|c s IH]; simpl; [done|].
  rewrite !andb_true_iff. intros [Hc Hs]. auto.
Qed.

Lemma prefix_app p v : String.prefix p (p +:+ v) = true.
Proof.
  induction p as [|a p IH]; simpl.
  - by destruct v.
  - destruct (ascii_dec a a); [exact IH | done].
Qed.

Lemma split_cons sep s : exists h t, split sep s = h :: t.
Proof.
  induction s as [|c s (h & t & IH)]; simpl; [eauto|].
  destruct (Ascii.eqb c sep); [eauto|]. rewrite IH. eauto.
Qed.

Lemma split_none sep s :
  all_chars (not_char sep) s = true -> split sep s = [s].
Proof.
  induction s as [|c s IH]; simpl; [done|].
  unfold not_char at 1. rewrite andb_true_iff, negb_true_iff. intros [-> Hs].
  by rewrite IH.
Qed.

Lemma split_app_sep sep a b :
  all_chars (not_char sep) a = true ->
  split sep (a +:+ String sep b) = a :: split sep b.
Proof.
  induction a as [|c a IH]; simpl.
  - intros _. by rewrite Ascii.eqb_refl.
  - unfold not_char at 1. rewrite andb_true_iff, negb_true_iff. intros [-> Ha].
    by rewrite IH.
Qed.

Lemma trimStart_id s : all_chars not_ws s = true -> trimStart s = s.
Proof.
  destruct s as [|c s]; simpl; [done|].
  unfold not_ws at 1. rewrite andb_true_iff, negb_true_iff. by intros [-> _].
Qed.

Lemma trimEnd_id s : all_chars not_ws s = true -> trimEnd s = s.
Proof.
  induction s as [|c s IH]; simpl; [done|].
  unfold not_ws at 1. rewrite andb_true_iff, negb_true_iff. intros [Hc Hs].
  rewrite IH by done. destruct s; [by rewrite Hc | done].
Qed.

Lemma trim_id s : all_chars not_ws s = true -> trim s = s.
Proof. intros H. unfold trim. by rewrite trimStart_id, trimEnd_id. Qed.

Lemma trimEnd_idempotent s : trimEnd (trimEnd s) = trimEnd s.
Proof.
  induction s as [|c s IH]; simpl; [done|].
  destruct (trimEnd s) as [|d t] eqn:Ht.
  - destruct (is_ws c) eqn:Hc; simpl; [done|]. by rewrite Hc.
  - change (trimEnd (String c (String d t))) with
      (match trimEnd (String d t) with
       | EmptyString => if is_ws c then EmptyString else String c EmptyString
       | u => String c u
       end).
    by rewrite IH.
Qed.

Lemma trimStart_head s :
  trimStart s = "" \/ exists c u, trimStart s = String c u /\ is_ws c = false.
Proof.
  induction s as [|c s IH]; simpl; [by left|].
  destruct (is_ws c) eqn:Hc; [exact IH | right; eauto].
Qed.

Lemma trimEnd_head c u :
  is_ws c = false -> exists v, trimEnd (String c u) = String c v.
Proof.
  intros Hc. simpl. destruct (trimEnd u); [rewrite Hc|]; eauto.
Qed.

Lemma trim_idempotent s : trim (trim s) = trim s.
Proof.
  unfold trim. destruct (trimStart_head s) as [-> | (c & u & -> & Hc)]; [done|].
  destruct (trimEnd_head c u Hc) as [v Hv]. rewrite Hv.
  assert (Hs : trimStart (String c v) = String c v) by (simpl; by rewrite Hc).
  rewrite Hs, <- Hv. apply trimEnd_idempotent.
Qed.

(** ** The cookie header *)

Lemma or_else_empty s : or_else (Some s) "" = s.
Proof.
  simpl. destruct (truthy_str s) eqn:H; [done|]. symmetry. by apply truthy_str_false.
Qed.

Lemma trim_space s : trim (String " " s) = trim s.
Proof. reflexivity. Qed.

(** Splitting what [cookie_header] joined gives the cookies back, up to
    the blank after each [;], which the trimming removes. *)
Lemma split_cookie_header cookies :
  cookies <> [] ->
  Forall (fun c => all_chars (not_char ";") c = true) cookies ->
  map trim (split ";" (cookie_header cookies)) = map trim cookies.
Proof.
  induction cookies as [|c [|c2 rest] IH]; [done | |].
  - intros _ Hc. apply Forall_inv in Hc. simpl. by rewrite split_none.
  - intros _ Hc. pose proof (Forall_inv Hc) as Hfree. apply Forall_inv_tail in Hc.
    change (cookie_header (c :: c2 :: rest))
      with (c +:+ String ";" (String " " (cookie_header (c2 :: rest)))).
    rewrite split_app_sep by done.
    change (split ";" (String " " (cookie_header (c2 :: rest))))
      with (match split ";" (cookie_header (c2 :: rest)) with
            | h :: t => String " " h :: t
            | [] => [String " " EmptyString]
            end).
    specialize (IH ltac:(done) Hc).
    destruct (split_cons ";" (cookie_header (c2 :: rest))) as (h & t & Hs).
    rewrite Hs in IH |- *. simpl map at 1. rewrite trim_space.
    simpl map at 2. f_equal. exact IH.
Qed.

Lemma find_app_skip {A} (f : A -> bool) (l1 l2 : list A) :
  Forall (fun x => f x = false) l1 -> find f (l1 ++ l2) = find f l2.
Proof.
  induction 1 as [|x l1 Hx _ IH]; simpl; [done|]. by rewrite Hx.
Qed.

Lemma value_char_not_ws s : all_chars value_char s = true -> all_chars not_ws s = true.
Proof.
  apply all_chars_impl. intros c. unfold value_char. rewrite andb_true_iff. tauto.
Qed.

Lemma value_char_no_semicolon s :
  all_chars value_char s = true -> all_chars (not_char ";") s = true.
Proof.
  apply all_chars_impl. intros c. unfold value_char. rewrite andb_true_iff. tauto.
Qed.

Lemma token_char_value s : all_chars token_char s = true -> all_chars value_char s = true.
Proof.
  apply all_chars_impl. intros c. unfold token_char. rewrite andb_true_iff. tauto.
Qed.

Lemma token_char_no_equals s :
  all_chars token_char s = true -> all_chars (not_char "=") s = true.
Proof.
  apply all_chars_impl. intros c. unfold token_char. rewrite andb_true_iff. tauto.
Qed.

(** What the gate and the logout handler read out of a header whose first
    [admin_sid] cookie has the value [v]: the part of [v] before its
    first [=]. *)
Lemma presented_token_header req before v after :
  cookie req = Some (cookie_header (before ++ session_cookie v :: after)) ->
  Forall (fun c => all_chars (not_char ";") c = true) (before ++ after) ->
  Forall (fun c => startsWith "admin_sid=" (trim c) = false) before ->
  all_chars value_char v = true ->
  presented_token req = hd_error (split "=" v).
Proof.
  intros Hreq Hfree Hbefore Hv.
  assert (Hsc_ws : all_chars not_ws (session_cookie v) = true).
  { unfold session_cookie. rewrite all_chars_app, (value_char_not_ws v Hv). reflexivity. }
  assert (Hsc_semi : all_chars (not_char ";") (session_cookie v) = true).
  { unfold session_cookie. rewrite all_chars_app, (value_char_no_semicolon v Hv). reflexivity. }
  unfold presented_token, cookie_match. rewrite Hreq, or_else_empty.
  rewrite split_cookie_header.
  - rewrite map_app, find_app_skip.
    + simpl. rewrite (trim_id _ Hsc_ws). unfold startsWith, session_cookie at 1.
      rewrite prefix_app. simpl. unfold cookie_sid.
      change (session_cookie v) with ("admin_sid" +:+ String "=" v).
      by rewrite split_app_sep.
    + apply Forall_map. exact Hbefore.
  - by destruct before.
  - apply Forall_app in Hfree as [Hb Ha]. apply Forall_app. split; [done|].
    by constructor.
Qed.

(** ** Lifetime of a session *)

Lemma not_key_accepted_sessions req st m :
  ~ key_accepted req st -> ~ key_accepted req (set_SESSIONS m st).
Proof. intros H (k & ? & ? & ?). apply H. by exists k. Qed.

Lemma isSessionValid_iff now t s st :
  t <> "" -> SESSIONS st !! t = Some s ->
  fst (isSessionValid now (Some t) st) = true <-> now <= expires s.
Proof.
  intros Ht Hs. split.
  - intros H. destruct (isSessionValid_true_inv _ _ _ H) as (t' & s' & [= <-] & _ & Hs' & Hle & _).
    congruence.
  - intros Hle. by rewrite (isSessionValid_live now st t s).
Qed.

(** X1: a session created at [now] under a non-empty token is valid at
    [now'] exactly when [now' <= now + SESSION_TTL_MS]; a check within
    that time leaves the store alone, a later one removes the token, after
    which the store holds what it held before minus that token. *)
Theorem createSession_lifetime (id : string) (now now' : Z) (st : server) :
  id <> "" ->
  (fst (isSessionValid now' (Some id) (snd (createSession id now st))) = true
     <-> now' <= now + SESSION_TTL_MS)
  /\ (now' <= now + SESSION_TTL_MS ->
      snd (isSessionValid now' (Some id) (snd (createSession id now st)))
      = snd (createSession id now st))
  /\ (now' > now + SESSION_TTL_MS ->
      SESSIONS (snd (isSessionValid now' (Some id) (snd (createSession id now st))))
      = delete id (SESSIONS st)).
Proof.
  intros Hid.
  set (s := {| createdAt := now; expires := now + SESSION_TTL_MS |}).
  assert (Hs : SESSIONS (snd (createSession id now st)) !! id = Some s)
    by apply lookup_insert_eq.
  split; [|split].
  - by rewrite (isSessionValid_iff now' id s).
  - intros Hle. by rewrite (isSessionValid_live now' _ id s).
  - intros Hgt. rewrite (isSessionValid_stale now' _ id s) by done.
    simpl. apply delete_insert_eq.
Qed.

Lemma createSession_lifetime_witness :
  fst (isSessionValid 3601000 (Some "c0ffee") (snd (createSession "c0ffee" 1000 demo_server)))
    = true
  /\ SESSIONS (snd (isSessionValid 3601001 (Some "c0ffee")
                      (snd (createSession "c0ffee" 1000 demo_server))))
     = SESSIONS demo_server.
Proof.
  pose proof (createSession_lifetime "c0ffee" 1000 3601000 demo_server ltac:(discriminate))
    as (Hv & _ & _).
  pose proof (createSession_lifetime "c0ffee" 1000 3601001 demo_server ltac:(discriminate))
    as (_ & _ & He).
  split.
  - apply Hv. reflexivity.
  - rewrite He by reflexivity. reflexivity.
Defined.

(** X2: a pass through the gate on a session resets the expiry to the
    clock reading of the refresh plus [SESSION_TTL_MS], keeping
    [createdAt]; from then on the token is valid exactly up to that new
    instant, whatever the expiry was before. *)
Theorem requireAdminAuth_slides_expiry
    (now_check now_refresh now' : Z) (req : request) (st : server) (t : string) (s : session) :
  ~ key_accepted req st ->
  presented_token req = Some t -> t <> "" ->
  SESSIONS st !! t = Some s -> now_check <= expires s ->
  SESSIONS (snd (requireAdminAuth now_check now_refresh req st)) !! t
    = Some {| createdAt := createdAt s; expires := now_refresh + SESSION_TTL_MS |}
  /\ (fst (isSessionValid now' (Some t) (snd (requireAdminAuth now_check now_refresh req st)))
        = true <-> now' <= now_refresh + SESSION_TTL_MS).
Proof.
  intros Hk Hp Ht Hs Hle.
  rewrite (requireAdminAuth_session now_check now_refresh req st t s) by done.
  assert (Hs' : SESSIONS (set_SESSIONS
      (<[t := {| createdAt := createdAt s; expires := now_refresh + SESSION_TTL_MS |}]>
         (SESSIONS st)) st) !! t
      = Some {| createdAt := createdAt s; expires := now_refresh + SESSION_TTL_MS |})
    by apply lookup_insert_eq.
  split; [exact Hs'|]. by rewrite (isSessionValid_iff now' t _ _ Ht Hs').
Qed.

Lemma requireAdminAuth_slides_expiry_witness :
  fst (isSessionValid 3600001 (Some "ab12") demo_server) = false
  /\ fst (isSessionValid 5400000 (Some "ab12")
            (snd (requireAdminAuth 1800000 1800000
                    (cookie_request "admin_sid=ab12") demo_server))) = true.
Proof.
  split; [reflexivity|].
  apply (requireAdminAuth_slides_expiry 1800000 1800000 5400000
           (cookie_request "admin_sid=ab12") demo_server "ab12"
           {| createdAt := 0; expires := 3600000 |}).
  - intros (k & Hk & _). discriminate Hk.
  - reflexivity.
  - discriminate.
  - reflexivity.
  - simpl. lia.
  - reflexivity.
Defined.

(** X3: a session whose requests follow one another within
    [SESSION_TTL_MS] of the previous refresh gets through the gate every
    time, however many requests there are. *)
Theorem session_kept_alive
    (times : list (Z * Z)) (req : request) (st : server) (t : string) (s : session) :
  ~ key_accepted req st ->
  presented_token req = Some t -> t <> "" ->
  SESSIONS st !! t = Some s ->
  kept_alive (expires s) times ->
  fst (gate_passes times req st) = true.
Proof.
  intros Hk Hp Ht. revert st s Hk.
  induction times as [|[c r] times IH]; intros st s Hk Hs Halive; [reflexivity|].
  destruct Halive as [Hle Halive]. cbn [gate_passes].
  rewrite (requireAdminAuth_session c r req st t s) by done.
  eapply IH; [by apply not_key_accepted_sessions | apply lookup_insert_eq | exact Halive].
Qed.

Lemma session_kept_alive_witness :
  fst (gate_passes [(3000000, 3000001); (6000000, 6000002); (9000000, 9000000)]
         (cookie_request "admin_sid=ab12") demo_server) = true.
Proof.
  apply (session_kept_alive _ (cookie_request "admin_sid=ab12") demo_server "ab12"
           {| createdAt := 0; expires := 3600000 |}).
  - intros (k & Hk & _). discriminate Hk.
  - reflexivity.
  - discriminate.
  - reflexivity.
  - simpl. unfold SESSION_TTL_MS. lia.
Defined.

(** X4: a request that comes with a session past its expiry is answered
    401, the session is removed from the store, and the same request is
    answered 401 at every later or earlier time. *)
Theorem requireAdminAuth_idle_session
    (now_check now_refresh : Z) (req : request) (st : server) (t : string) (s : session) :
  ~ key_accepted req st ->
  presented_token req = Some t -> t <> "" ->
  SESSIONS st !! t = Some s -> now_check > expires s ->
  requireAdminAuth now_check now_refresh req st
    = (Returned (Denied unauthorized), set_SESSIONS (delete t (SESSIONS st)) st)
  /\ forall c r,
       requireAdminAuth c r req (set_SESSIONS (delete t (SESSIONS st)) st)
       = (Returned (Denied unauthorized), set_SESSIONS (delete t (SESSIONS st)) st).
Proof.
  intros Hk Hp Ht Hs Hgt. split.
  - pose proof (isSessionValid_stale now_check st t s Ht Hs Hgt) as Hstale.
    rewrite requireAdminAuth_deny; rewrite ?Hp, ?Hstale; done.
  - intros c r.
    assert (Hgone : SESSIONS (set_SESSIONS (delete t (SESSIONS st)) st) !! t = None)
      by apply lookup_delete_eq.
    pose proof (isSessionValid_unknown c _ t Hgone) as Hunknown.
    rewrite requireAdminAuth_deny; rewrite ?Hp, ?Hunknown;
      try done; by apply not_key_accepted_sessions.
Qed.

Lemma requireAdminAuth_idle_session_witness :
  requireAdminAuth 3600001 3600002 (cookie_request "admin_sid=ab12") demo_server
  = (Returned (Denied unauthorized), set_SESSIONS ∅ demo_server).
Proof.
  rewrite (proj1 (requireAdminAuth_idle_session 3600001 3600002
                    (cookie_request "admin_sid=ab12") demo_server "ab12"
                    {| createdAt := 0; expires := 3600000 |}
                    ltac:(intros (k & Hk & _); discriminate Hk)
                    eq_refl ltac:(discriminate) eq_refl eq_refl)).
  reflexivity.
Defined.

(** ** What a request can touch *)

Lemma isSessionValid_others now id st t' :
  id <> Some t' ->
  SESSIONS (snd (isSessionValid now id st)) !! t' = SESSIONS st !! t'.
Proof.
  intros Hne. unfold isSessionValid. destruct id as [t|]; [|done].
  destruct (negb (truthy_str t)); [done|].
  destruct (SESSIONS st !! t) as [s|]; [|done].
  destruct (now >? expires s); [|done].
  simpl. apply lookup_delete_ne. congruence.
Qed.

Lemma isSessionValid_fields now id st :
  env (snd (isSessionValid now id st)) = env st
  /\ ADMIN_KEY (snd (isSessionValid now id st)) = ADMIN_KEY st
  /\ admins (snd (isSessionValid now id st)) = admins st
  /\ submissions (snd (isSessionValid now id st)) = submissions st.
Proof.
  unfold isSessionValid. destruct id as [t|]; [|done].
  destruct (negb (truthy_str t)); [done|].
  destruct (SESSIONS st !! t) as [s|]; [|done].
  by destruct (now >? expires s).
Qed.

(** The state the gate leaves: the one it found, the one
    [isSessionValid] left, or that one with the token's entry rewritten. *)
Lemma requireAdminAuth_state now1 now2 req st :
  snd (requireAdminAuth now1 now2 req st) = st
  \/ snd (requireAdminAuth now1 now2 req st) = snd (isSessionValid now1 (presented_token req) st)
  \/ exists t s s',
       presented_token req = Some t /\ SESSIONS st !! t = Some s /\
       snd (requireAdminAuth now1 now2 req st) = set_SESSIONS (<[t := s']> (SESSIONS st)) st.
Proof.
  destruct (truthy_opt (x_api_key req) && bool_decide (x_api_key req = Some (ADMIN_KEY st)))
    eqn:Hk.
  - left. rewrite requireAdminAuth_key; [done|]. by apply key_accepted_iff.
  - assert (Hn : ~ key_accepted req st) by (rewrite <- key_accepted_iff; congruence).
    destruct (fst (isSessionValid now1 (presented_token req) st)) eqn:Hv.
    + right; right.
      destruct (isSessionValid_true_inv _ _ _ Hv) as (t & s & Hp & Ht & Hs & Hle & _).
      exists t, s. eexists. split; [done|]. split; [done|].
      by rewrite (requireAdminAuth_session now1 now2 req st t s).
    + right; left. by rewrite requireAdminAuth_deny.
Qed.

Lemma requireAdminAuth_fields now1 now2 req st :
  env (snd (requireAdminAuth now1 now2 req st)) = env st
  /\ ADMIN_KEY (snd (requireAdminAuth now1 now2 req st)) = ADMIN_KEY st
  /\ admins (snd (requireAdminAuth now1 now2 req st)) = admins st
  /\ submissions (snd (requireAdminAuth now1 now2 req st)) = submissions st.
Proof.
  destruct (requireAdminAuth_state now1 now2 req st)
    as [-> | [-> | (t & s & s' & _ & _ & ->)]]; [done | | done].
  apply isSessionValid_fields.
Qed.

(** X5: the gate changes nothing but the session the request presents:
    the environment, the admin key, the stored credential and the
    submissions are as before, and so is the entry of every other token. *)
Theorem requireAdminAuth_own_session_only
    (now_check now_refresh : Z) (req : request) (st : server) :
  env (snd (requireAdminAuth now_check now_refresh req st)) = env st
  /\ ADMIN_KEY (snd (requireAdminAuth now_check now_refresh req st)) = ADMIN_KEY st
  /\ admins (snd (requireAdminAuth now_check now_refresh req st)) = admins st
  /\ submissions (snd (requireAdminAuth now_check now_refresh req st)) = submissions st
  /\ forall t', presented_token req <> Some t' ->
       SESSIONS (snd (requireAdminAuth now_check now_refresh req st)) !! t'
       = SESSIONS st !! t'.
Proof.
  destruct (requireAdminAuth_state now_check now_refresh req st)
    as [-> | [-> | (t & s & s' & Hp & Hs & ->)]].
  - done.
  - destruct (isSessionValid_fields now_check (presented_token req) st) as (? & ? & ? & ?).
    repeat split; try done. intros t' Hne. by apply isSessionValid_others.
  - repeat split. intros t' Hne. simpl. apply lookup_insert_ne. congruence.
Qed.

(** X6: logout removes the session of the presented token and nothing
    else: every other token keeps its entry, and the environment, the
    admin key, the stored credential and the submissions are as before. *)
Theorem logout_own_session_only (req : request) (st : server) :
  env (snd (logout req st)) = env st
  /\ ADMIN_KEY (snd (logout req st)) = ADMIN_KEY st
  /\ admins (snd (logout req st)) = admins st
  /\ submissions (snd (logout req st)) = submissions st
  /\ forall t', presented_token req <> Some t' ->
       SESSIONS (snd (logout req st)) !! t' = SESSIONS st !! t'.
Proof.
  destruct (logout_frame req st) as (? & ? & ? & ?). repeat split; try done.
  intros t' Hne. rewrite logout_sessions.
  destruct (presented_token req) as [t|]; [|done].
  destruct (truthy_str t); [|done]. apply lookup_delete_ne. congruence.
Qed.

(** ** Reading the token out of the cookie header *)

(** X7: from a header of cookies joined by [; ], in which no cookie
    before the session cookie starts with [admin_sid=], the gate and the
    logout handler read back the token of the session cookie, provided the
    token has no whitespace, [;] or [=] in it (as a token of hexadecimal
    digits has not). *)
Theorem session_cookie_round_trip
    (req : request) (before after : list string) (t : string) :
  cookie req = Some (cookie_header (before ++ session_cookie t :: after)) ->
  Forall (fun c => all_chars (not_char ";") c = true) (before ++ after) ->
  Forall (fun c => startsWith "admin_sid=" (trim c) = false) before ->
  all_chars token_char t = true ->
  presented_token req = Some t.
Proof.
  intros Hreq Hfree Hbefore Ht.
  rewrite (presented_token_header req before t after Hreq Hfree Hbefore)
    by by apply token_char_value.
  by rewrite split_none by by apply token_char_no_equals.
Qed.

Lemma session_cookie_round_trip_witness :
  presented_token (cookie_request "theme=dark; admin_sid=0a1b2c3d; lang=en") = Some "0a1b2c3d".
Proof.
  apply (session_cookie_round_trip
           (cookie_request "theme=dark; admin_sid=0a1b2c3d; lang=en")
           ["theme=dark"] ["lang=en"] "0a1b2c3d");
    [reflexivity | repeat constructor | repeat constructor | reflexivity].
Defined.

(** X8: a cookie value with an [=] in it is cut there: the token read is
    the part before the first [=]. *)
Theorem session_cookie_cut_at_equals
    (req : request) (before after : list string) (a b : string) :
  cookie req = Some (cookie_header (before ++ session_cookie (a +:+ String "=" b) :: after)) ->
  Forall (fun c => all_chars (not_char ";") c = true) (before ++ after) ->
  Forall (fun c => startsWith "admin_sid=" (trim c) = false) before ->
  all_chars token_char a = true ->
  all_chars value_char b = true ->
  presented_token req = Some a.
Proof.
  intros Hreq Hfree Hbefore Ha Hb.
  rewrite (presented_token_header req before _ after Hreq Hfree Hbefore).
  - by rewrite split_app_sep by by apply token_char_no_equals.
  - rewrite all_chars_app, (token_char_value a Ha). simpl. by rewrite Hb.
Qed.

Lemma session_cookie_cut_at_equals_witness :
  presented_token (cookie_request "admin_sid=ab12=cd34") = Some "ab12".
Proof.
  apply (session_cookie_cut_at_equals (cookie_request "admin_sid=ab12=cd34")
           [] [] "ab12" "cd34");
    [reflexivity | constructor | constructor | reflexivity | reflexivity].
Defined.

(** ** Login *)

Lemma getAdminPassword_not_empty readyState findOne st p :
  getAdminPassword readyState findOne st = Returned p -> p <> "".
Proof.
  assert (Hfb : fallback_password st <> "")
    by apply truthy_str_true, or_else_truthy, default_panel_password_truthy.
  unfold getAdminPassword.
  destruct (readyState =? 1); [|by intros [= <-]].
  destruct findOne; simpl; [|by intros [= <-]].
  destruct (admins st) as [d|]; [|by intros [= <-]].
  destruct (truthy_str (password d)) eqn:Hd; intros [= <-]; [|done].
  by apply truthy_str_true.
Qed.

Lemma no_key_not_accepted req st : x_api_key req = None -> ~ key_accepted req st.
Proof. intros H (k & Hk & _). congruence. Qed.

Lemma verify_fields w req st :
  env (snd (verify w req st)) = env st
  /\ ADMIN_KEY (snd (verify w req st)) = ADMIN_KEY st
  /\ admins (snd (verify w req st)) = admins st
  /\ submissions (snd (verify w req st)) = submissions st.
Proof.
  unfold verify.
  destruct (getAdminPassword (v_readyState w) (v_findOne w) st) as [expected|]; [|done].
  match goal with |- context [if ?c then _ else _] => destruct c end; [|done].
  by destruct (v_randomBytes w).
Qed.

Lemma verify_accepts w req st expected b :
  getAdminPassword (v_readyState w) (v_findOne w) st = Returned expected ->
  body req = Some b -> b_password b = Str expected ->
  verify w req st =
    match v_randomBytes w with
    | Returned id =>
        ({| status := 200; json := POk; set_cookie := CookieSet id SESSION_TTL_MS |},
         snd (createSession id (v_now w) st))
    | Thrown _ => (respond 200 POk, st)
    end.
Proof.
  intros He Hb Hp. pose proof (getAdminPassword_not_empty _ _ _ _ He) as Hne.
  apply truthy_str_true in Hne.
  unfold verify. rewrite He, Hb, Hp. cbn [truthy]. rewrite Hne.
  cbn [truthy strict_eq_str]. rewrite Hne, String.eqb_refl.
  by destruct (v_randomBytes w).
Qed.

Lemma verify_rejects w req st expected :
  getAdminPassword (v_readyState w) (v_findOne w) st = Returned expected ->
  ~ (exists b, body req = Some b /\ b_password b = Str expected) ->
  verify w req st = (unauthorized, st).
Proof.
  intros He Hno. unfold verify. rewrite He.
  destruct (body req) as [b|]; [|done].
  destruct (b_password b) as [|p|o] eqn:Hp; simpl.
  - done.
  - destruct (truthy_str p) eqn:Htp; simpl; [|done]. rewrite Htp. simpl.
    destruct (String.eqb_spec p expected) as [->|]; [|done].
    exfalso. apply Hno. by exists b.
  - by destruct (o_truthy o); simpl; rewrite ?andb_false_r.
Qed.

(** The login answers 200 exactly for the resolved password. *)
Lemma verify_ok_iff w req st expected :
  getAdminPassword (v_readyState w) (v_findOne w) st = Returned expected ->
  status (fst (verify w req st)) = 200
  <-> exists b, body req = Some b /\ b_password b = Str expected.
Proof.
  intros He. split.
  - intros Hok. destruct (body req) as [b|] eqn:Hb.
    + destruct (b_password b) as [|p|o] eqn:Hp.
      * rewrite (verify_rejects w req st expected He) in Hok; [discriminate|].
        intros (b' & Hb' & Hp'). congruence.
      * destruct (String.eqb_spec p expected) as [->|Hne]; [by exists b|].
        rewrite (verify_rejects w req st expected He) in Hok; [discriminate|].
        intros (b' & Hb' & Hp'). congruence.
      * rewrite (verify_rejects w req st expected He) in Hok; [discriminate|].
        intros (b' & Hb' & Hp'). congruence.
    + rewrite (verify_rejects w req st expected He) in Hok; [discriminate|].
      intros (b' & ? & _). congruence.
  - intros (b & Hb & Hp). rewrite (verify_accepts w req st expected b He Hb Hp).
    by destruct (v_randomBytes w).
Qed.

(** X9: the login answers 200 exactly when the body carries, as a
    string, the password [getAdminPassword] resolves to, which is never
    empty; it then stores a session under the random token and sets the
    cookie with [maxAge] equal to [SESSION_TTL_MS], or, when the random
    generator throws, answers 200 with no cookie and no session. Every
    other request (no body, no password, a password that is not a string,
    a wrong one) is answered 401 and changes nothing. *)
Theorem verify_decision (w : verify_world) (req : request) (st : server) :
  exists expected,
    getAdminPassword (v_readyState w) (v_findOne w) st = Returned expected
    /\ expected <> ""
    /\ ((exists b, body req = Some b /\ b_password b = Str expected) ->
        verify w req st =
          match v_randomBytes w with
          | Returned id =>
              ({| status := 200; json := POk; set_cookie := CookieSet id SESSION_TTL_MS |},
               snd (createSession id (v_now w) st))
          | Thrown _ => (respond 200 POk, st)
          end)
    /\ (~ (exists b, body req = Some b /\ b_password b = Str expected) ->
        verify w req st = (unauthorized, st)).
Proof.
  destruct (getAdminPassword_total (v_readyState w) (v_findOne w) st) as [expected He].
  exists expected. split; [done|].
  split; [by apply (getAdminPassword_not_empty _ _ _ _ He)|]. split.
  - intros (b & Hb & Hp). exact (verify_accepts w req st expected b He Hb Hp).
  - exact (verify_rejects w req st expected He).
Qed.

(** X10: a login leaves the sessions of all other tokens as they are,
    and does not touch the environment, the admin key, the stored
    credential or the submissions. *)
Theorem verify_keeps_other_sessions (w : verify_world) (req : request) (st : server) :
  env (snd (verify w req st)) = env st
  /\ ADMIN_KEY (snd (verify w req st)) = ADMIN_KEY st
  /\ admins (snd (verify w req st)) = admins st
  /\ submissions (snd (verify w req st)) = submissions st
  /\ forall t', v_randomBytes w <> Returned t' ->
       SESSIONS (snd (verify w req st)) !! t' = SESSIONS st !! t'.
Proof.
  destruct (verify_fields w req st) as (? & ? & ? & ?). repeat split; try done.
  intros t' Hne. destruct (verify_sessions w req st) as [-> | (id & Hid & ->)]; [done|].
  apply lookup_insert_ne. congruence.
Qed.

(** X11: log in, use, log out. The token a login hands out in its
    cookie gets a request carrying that cookie through the gate up to
    [SESSION_TTL_MS] after the login; once that request has logged out,
    it is answered 401 at any time. *)
Theorem login_use_logout
    (w : verify_world) (req creq : request) (st : server) (id : string) (maxAge : Z)
    (now_check now_refresh : Z) :
  set_cookie (fst (verify w req st)) = CookieSet id maxAge ->
  id <> "" -> all_chars token_char id = true ->
  x_api_key creq = None -> cookie creq = Some (session_cookie id) ->
  now_check <= v_now w + SESSION_TTL_MS ->
  fst (requireAdminAuth now_check now_refresh creq (snd (verify w req st))) = Returned Next
  /\ forall c r,
       fst (requireAdminAuth c r creq
              (snd (logout creq
                      (snd (requireAdminAuth now_check now_refresh creq
                              (snd (verify w req st)))))))
       = Returned (Denied unauthorized).
Proof.
  intros Hcookie Hid Htok Hkey Hc Hle.
  assert (Hp : presented_token creq = Some id).
  { rewrite (presented_token_header creq [] id []); try done.
    - by rewrite split_none by by apply token_char_no_equals.
    - by apply token_char_value. }
  destruct (verify_creates_session _ _ _ _ _ Hcookie) as [_ ->].
  set (s := {| createdAt := v_now w; expires := v_now w + SESSION_TTL_MS |}).
  rewrite (requireAdminAuth_session now_check now_refresh creq _ id s);
    [| by apply no_key_not_accepted | done | done | apply lookup_insert_eq | done].
  split; [reflexivity|]. intros c r. cbn [snd].
  rewrite requireAdminAuth_deny.
  - reflexivity.
  - by apply no_key_not_accepted.
  - rewrite Hp, isSessionValid_unknown; [done|]. by apply logout_token_gone.
Qed.

Lemma login_use_logout_witness :
  let login := {| x_api_key := None; cookie := None;
                  body := Some (login_body (Str "admin1234")) |} in
  let w := {| v_readyState := 1; v_findOne := DbOk;
              v_randomBytes := Returned "c0ffee"; v_now := 1000 |} in
  let creq := cookie_request "admin_sid=c0ffee" in
  fst (requireAdminAuth 2000 2001 creq (snd (verify w login demo_server))) = Returned Next
  /\ fst (requireAdminAuth 2003 2004 creq
            (snd (logout creq (snd (requireAdminAuth 2000 2001 creq
                                      (snd (verify w login demo_server)))))))
     = Returned (Denied unauthorized).
Proof.
  intros login w creq.
  destruct (login_use_logout w login creq demo_server "c0ffee" 3600000 2000 2001)
    as [Hpass Hdeny]; try reflexivity; try discriminate.
  split; [exact Hpass | apply Hdeny].
Defined.

(** ** Changing the password, and what resolves afterwards *)

Lemma strict_eq_str_true v s : strict_eq_str v s = true -> v = Str s.
Proof.
  destruct v as [|t|o]; simpl; try discriminate.
  intros H. apply String.eqb_eq in H. by subst.
Qed.

Lemma changePassword_route_ok now_check now_refresh w req st :
  status (fst (changePassword_route now_check now_refresh w req st)) = 200 ->
  exists st1 b expected,
    requireAdminAuth now_check now_refresh req st = (Returned Next, st1)
    /\ body req = Some b
    /\ getAdminPassword (c_readyState_lookup w) (c_findOne w) st1 = Returned expected
    /\ passes_validation b expected
    /\ exists p,
         to_string (b_newPassword b) = Returned p
         /\ changePassword_route now_check now_refresh w req st
            = (password_changed, after_change w (b_newPassword b) p st1).
Proof.
  unfold changePassword_route.
  destruct (requireAdminAuth_cases now_check now_refresh req st) as [[st1 Ha] | [st1 Ha]];
    rewrite Ha; simpl; [|discriminate].
  destruct (changePassword_cases w req st1)
    as [-> | (b & e & Hb & He & [(_ & _ & Hs) | (p & Hp & Hstr & Hr)])];
    [discriminate | done |].
  intros _. exists st1, b, e. split; [done|]. split; [done|]. split; [done|].
  split; [done|]. exists p. by rewrite Hr.
Qed.

(** X12: a 200 from POST /admin/change-password means the request got
    through the gate and, besides, carried as [currentPassword] the
    very string the password resolves to; a new password given as a
    string has at least 6 characters. An API key or a session alone does
    not change the password. *)
Theorem changePassword_needs_current_password
    (now_check now_refresh : Z) (w : change_world) (req : request) (st : server) :
  status (fst (changePassword_route now_check now_refresh w req st)) = 200 ->
  exists st1 b expected,
    requireAdminAuth now_check now_refresh req st = (Returned Next, st1)
    /\ body req = Some b
    /\ getAdminPassword (c_readyState_lookup w) (c_findOne w) st1 = Returned expected
    /\ b_currentPassword b = Str expected
    /\ forall s, b_newPassword b = Str s -> (6 <= String.length s)%nat.
Proof.
  intros Hok.
  destruct (changePassword_route_ok _ _ _ _ _ Hok)
    as (st1 & b & e & Ha & Hb & He & (_ & _ & Hcur & Hlen) & _).
  exists st1, b, e. repeat split; try done.
  - by apply strict_eq_str_true.
  - intros s Hs. rewrite Hs in Hlen. simpl in Hlen. injection Hlen as Hlen.
    apply Z.ltb_ge in Hlen. lia.
Qed.

Lemma changePassword_needs_current_password_witness :
  exists st1 b expected,
    requireAdminAuth 1000 1001 demo_change demo_server = (Returned Next, st1)
    /\ body demo_change = Some b
    /\ getAdminPassword 1 DbOk st1 = Returned expected
    /\ b_currentPassword b = Str expected
    /\ forall s, b_newPassword b = Str s -> (6 <= String.length s)%nat.
Proof.
  exact (changePassword_needs_current_password 1000 1001 world_upsert_rejects
           demo_change demo_server eq_refl).
Defined.

Section AfterChange.

Variables (w : change_world) (req : request) (st : server).
Variables (b : reqbody) (expected s : string).
Hypothesis Hbody : body req = Some b.
Hypothesis Hexpected :
  getAdminPassword (c_readyState_lookup w) (c_findOne w) st = Returned expected.
Hypothesis Hpasses : passes_validation b expected.
Hypothesis Hnew : b_newPassword b = Str s.
Hypothesis Hnul : nul_free s.

Lemma new_password_truthy : truthy_str s = true.
Proof. destruct Hpasses as (_ & Hn & _). by rewrite Hnew in Hn. Qed.

Lemma after_change_fallback : fallback_password (after_change w (Str s) s st) = s.
Proof.
  unfold fallback_password. simpl. rewrite (c_string_nul_free s Hnul).
  by rewrite new_password_truthy.
Qed.

Lemma after_change_admins :
  admins (after_change w (Str s) s st)
  = if (c_readyState_persist w =? 1)
    then match c_findOneAndUpdate w with
         | DbOk => Some {| password := s; updatedAt := c_now w |}
         | DbError _ => admins st
         end
    else admins st.
Proof.
  simpl. by destruct (c_findOneAndUpdate w), (c_readyState_persist w =? 1).
Qed.

Lemma changePassword_state :
  snd (changePassword w req st) = after_change w (Str s) s st.
Proof.
  rewrite (changePassword_accepted w req st b expected Hbody Hexpected s Hpasses);
    by rewrite Hnew.
Qed.

End AfterChange.

(** X13: after a password change that was accepted, to a string without
    NUL characters, with the record written or with no record in the
    database to begin with, every later lookup resolves to the new
    password, connected or not, and the login answers 200 for the new
    password and for no other. *)
Theorem changePassword_then_new_password
    (w : change_world) (req : request) (st : server) (b : reqbody) (expected s : string) :
  body req = Some b ->
  getAdminPassword (c_readyState_lookup w) (c_findOne w) st = Returned expected ->
  passes_validation b expected ->
  b_newPassword b = Str s -> nul_free s ->
  (c_readyState_persist w = 1 /\ c_findOneAndUpdate w = DbOk) \/ admins st = None ->
  (forall readyState findOne,
     getAdminPassword readyState findOne (snd (changePassword w req st)) = Returned s)
  /\ (forall vw vreq,
        status (fst (verify vw vreq (snd (changePassword w req st)))) = 200
        <-> exists vb, body vreq = Some vb /\ b_password vb = Str s).
Proof.
  intros Hb He Hp Hs Hnul Hcase.
  pose proof (new_password_truthy b expected s Hp Hs) as Htruthy.
  assert (Hres : forall readyState findOne,
    getAdminPassword readyState findOne (snd (changePassword w req st)) = Returned s).
  { intros rs r. rewrite (changePassword_state w req st b expected s Hb He Hp Hs).
    unfold getAdminPassword.
    rewrite (after_change_fallback w st b expected s Hp Hs Hnul).
    destruct (rs =? 1); [|done]. destruct r; [|done]. cbn [Admin_findOne bind].
    rewrite after_change_admins.
    destruct Hcase as [[-> ->] | Hnone].
    - simpl. by rewrite Htruthy.
    - rewrite Hnone. destruct (c_readyState_persist w =? 1); [|done].
      destruct (c_findOneAndUpdate w); [|done]. simpl. by rewrite Htruthy. }
  split; [exact Hres|]. intros vw vreq. apply verify_ok_iff, Hres.
Qed.

Lemma changePassword_then_new_password_witness :
  getAdminPassword 0 (DbError "down")
    (snd (changePassword world_upsert_ok demo_change demo_server)) = Returned "hunter22"
  /\ getAdminPassword 1 DbOk
       (snd (changePassword world_upsert_ok demo_change demo_server)) = Returned "hunter22".
Proof.
  destruct (changePassword_then_new_password world_upsert_ok demo_change demo_server
              (change_body (Str "admin1234") (Str "hunter22")) "admin1234" "hunter22"
              eq_refl eq_refl
              (conj eq_refl (conj eq_refl (conj eq_refl eq_refl)))
              eq_refl eq_refl (or_introl (conj eq_refl eq_refl))) as [Hres _].
  split; apply Hres.
Defined.

(** X14: after a password change that was accepted, to a string without
    NUL characters, but not written (the upsert rejected, or was not
    attempted), a record already in the database still decides:
    connected lookups resolve to the old record's password, and only
    lookups that do not reach the database resolve to the new one. *)
Theorem changePassword_stale_record
    (w : change_world) (req : request) (st : server) (b : reqbody) (expected s : string)
    (d : admin_doc) :
  body req = Some b ->
  getAdminPassword (c_readyState_lookup w) (c_findOne w) st = Returned expected ->
  passes_validation b expected ->
  b_newPassword b = Str s -> nul_free s ->
  persist_fails w ->
  admins st = Some d -> password d <> "" ->
  getAdminPassword 1 DbOk (snd (changePassword w req st)) = Returned (password d)
  /\ (forall readyState findOne,
        readyState <> 1 \/ (exists e, findOne = DbError e) ->
        getAdminPassword readyState findOne (snd (changePassword w req st)) = Returned s).
Proof.
  intros Hb He Hp Hs Hnul Hfail Hd Hpw.
  assert (Hadm : admins (snd (changePassword w req st)) = Some d).
  { rewrite (changePassword_state w req st b expected s Hb He Hp Hs), after_change_admins.
    destruct Hfail as [Hrs | [e ->]].
    - apply Z.eqb_neq in Hrs. by rewrite Hrs.
    - by destruct (c_readyState_persist w =? 1). }
  split.
  - by apply getAdminPassword_record.
  - intros rs r Hdown. rewrite getAdminPassword_fallback by tauto.
    rewrite (changePassword_state w req st b expected s Hb He Hp Hs).
    by rewrite (after_change_fallback w st b expected s Hp Hs Hnul).
Qed.

Lemma changePassword_stale_record_witness :
  fst (changePassword world_upsert_rejects change_from_record server_with_record)
    = password_changed
  /\ getAdminPassword 1 DbOk
       (snd (changePassword world_upsert_rejects change_from_record server_with_record))
     = Returned "first-pw"
  /\ getAdminPassword 0 DbOk
       (snd (changePassword world_upsert_rejects change_from_record server_with_record))
     = Returned "hunter22".
Proof.
  destruct (changePassword_stale_record world_upsert_rejects change_from_record
              server_with_record (change_body (Str "first-pw") (Str "hunter22"))
              "first-pw" "hunter22" {| password := "first-pw"; updatedAt := 10 |}
              eq_refl eq_refl (conj eq_refl (conj eq_refl (conj eq_refl eq_refl)))
              eq_refl eq_refl (or_intror (ex_intro _ _ eq_refl)) eq_refl
              ltac:(discriminate))
    as [Hold Hnew].
  split; [reflexivity|]. split; [exact Hold|]. apply Hnew. left. discriminate.
Defined.

(** ** What no request changes *)

Lemma changePassword_fields w req st :
  ADMIN_KEY (snd (changePassword w req st)) = ADMIN_KEY st
  /\ submissions (snd (changePassword w req st)) = submissions st.
Proof.
  destruct (changePassword_cases w req st)
    as [-> | (b & e & _ & _ & [(_ & -> & _) | (p & _ & _ & ->)])]; done.
Qed.

Lemma contact_fields w req st :
  ADMIN_KEY (snd (contact w req st)) = ADMIN_KEY st
  /\ (submissions (snd (contact w req st)) = submissions st
      \/ exists sub, submissions (snd (contact w req st)) = submissions st ++ [sub]).
Proof.
  destruct (contact_cases w req st) as [-> | [-> | (n & e & c & m & _ & _ & _ & _ & ->)]];
    simpl; eauto.
Qed.

Lemma step_ADMIN_KEY o st : ADMIN_KEY (step o st) = ADMIN_KEY st.
Proof.
  destruct o; cbn [step].
  - apply isSessionValid_fields.
  - apply requireAdminAuth_fields.
  - apply logout_frame.
  - unfold changePassword_route.
    pose proof (requireAdminAuth_fields now_check now_refresh req st) as (_ & Hk & _).
    destruct (requireAdminAuth now_check now_refresh req st) as [[[|r]|e] st1];
      simpl in *; try done.
    by rewrite (proj1 (changePassword_fields w req st1)).
  - apply contact_fields.
  - apply verify_fields.
Qed.

Lemma step_submissions o st : submissions st `prefix_of` submissions (step o st).
Proof.
  destruct o; cbn [step].
  - by rewrite (proj2 (proj2 (proj2 (isSessionValid_fields now id st)))).
  - by rewrite (proj2 (proj2 (proj2 (requireAdminAuth_fields now_check now_refresh req st)))).
  - by rewrite (proj2 (proj2 (proj2 (logout_frame req st)))).
  - unfold changePassword_route.
    pose proof (requireAdminAuth_fields now_check now_refresh req st) as (_ & _ & _ & Hs).
    destruct (requireAdminAuth now_check now_refresh req st) as [[[|r]|e] st1];
      simpl in *; rewrite <- Hs; try done.
    by rewrite (proj2 (changePassword_fields w req st1)).
  - destruct (contact_fields w req st) as [_ [-> | [sub ->]]]; [done|].
    by apply prefix_app_r.
  - by rewrite (proj2 (proj2 (proj2 (verify_fields w req st)))).
Qed.

(** X15: the admin key is fixed for the life of the process: after any
    sequence of validity checks, gate passes, logins, logouts, password
    changes and contact posts, a request that carries the key still gets
    through the gate, and the gate leaves the state alone. *)
Theorem api_key_always_opens
    (ops : list op) (now_check now_refresh : Z) (req : request) (st : server) :
  key_accepted req st ->
  ADMIN_KEY (run ops st) = ADMIN_KEY st
  /\ requireAdminAuth now_check now_refresh req (run ops st) = (Returned Next, run ops st).
Proof.
  intros Hk.
  assert (Hkey : ADMIN_KEY (run ops st) = ADMIN_KEY st).
  { revert st Hk. induction ops as [|o ops IH]; intros st Hk; simpl; [done|].
    rewrite IH; [apply step_ADMIN_KEY|].
    destruct Hk as (k & ? & ? & ?). exists k. by rewrite step_ADMIN_KEY. }
  split; [exact Hkey|]. apply requireAdminAuth_key.
  destruct Hk as (k & ? & ? & ?). exists k. by rewrite Hkey.
Qed.

Lemma api_key_always_opens_witness :
  requireAdminAuth 9000 9001 demo_change
    (run [OpChangePassword 1000 1001 world_upsert_ok demo_change;
          OpLogout (cookie_request "admin_sid=ab12")] demo_server)
  = (Returned Next,
     run [OpChangePassword 1000 1001 world_upsert_ok demo_change;
          OpLogout (cookie_request "admin_sid=ab12")] demo_server).
Proof.
  apply (api_key_always_opens _ 9000 9001 demo_change demo_server).
  exists "k3y-for-admins". repeat split. discriminate.
Defined.

(** X16: validity checks, gate passes, logins, logouts, password changes
    and contact posts never remove or alter a stored submission: what was
    stored is a prefix of what is stored afterwards. *)
Theorem submissions_only_grow (ops : list op) (st : server) :
  submissions st `prefix_of` submissions (run ops st).
Proof.
  revert st. induction ops as [|o ops IH]; intros st; simpl; [done|].
  etrans; [apply step_submissions | apply IH].
Qed.

(** ** Contact form: what is stored *)

Lemma trim_or_empty_trimmed v c : trim_or_empty v = Returned c -> trim c = c.
Proof.
  unfold trim_or_empty. destruct (truthy v); [|by intros [= <-]].
  destruct v as [|s|o]; simpl; try discriminate. intros [= <-]. apply trim_idempotent.
Qed.

(** X17: a 201 from POST /api/contact appends exactly one record, with
    the generated id, and each of its four text fields is trimmed:
    trimming it again changes nothing, so none starts or ends with
    whitespace. *)
Theorem contact_stores_trimmed (w : contact_world) (req : request) (st : server) :
  status (fst (contact w req st)) = 201 ->
  exists sub,
    submissions (snd (contact w req st)) = submissions st ++ [sub]
    /\ json (fst (contact w req st)) = PCreated (sub_id sub)
    /\ sub_id sub = k_objectId w
    /\ trim (sub_name sub) = sub_name sub
    /\ trim (sub_email sub) = sub_email sub
    /\ trim (sub_company sub) = sub_company sub
    /\ trim (sub_message sub) = sub_message sub.
Proof.
  destruct (contact_cases w req st)
    as [-> | [-> | (n & e & c & m & _ & _ & Hc & Hm & ->)]]; [discriminate.. |].
  intros _. eexists. split; [reflexivity|]. simpl.
  repeat split; eauto using trim_idempotent, trim_or_empty_trimmed.
Qed.

Lemma contact_stores_trimmed_witness :
  exists sub,
    submissions (snd (contact {| k_objectId := "65f0c0ffee"; k_save := DbOk |}
                        {| x_api_key := None; cookie := None;
                           body := Some (contact_body (Str " Ada ") (Str "ada@example.com ")
                                                      Undefined (Str "  hello  ")) |}
                        demo_server)) = [sub]
    /\ sub_name sub = "Ada" /\ sub_email sub = "ada@example.com"
    /\ sub_message sub = "hello".
Proof.
  destruct (contact_stores_trimmed {| k_objectId := "65f0c0ffee"; k_save := DbOk |}
              {| x_api_key := None; cookie := None;
                 body := Some (contact_body (Str " Ada ") (Str "ada@example.com ")
                                            Undefined (Str "  hello  ")) |}
              demo_server eq_refl) as (sub & Hsub & _).
  exists sub. split; [exact Hsub|].
  simpl in Hsub. injection Hsub as <-. repeat split.
Defined.

(** X18: a name, email, company or message that is present and truthy
    but not a string (a number, an array, an object) makes the handler
    answer 500, not 400, and store nothing. *)
Theorem contact_non_text (w : contact_world) (req : request) (st : server) (o : other) :
  truthy (body_field b_name req) = true ->
  truthy (body_field b_email req) = true ->
  o_truthy o = true ->
  body_field b_name req = Other o \/ body_field b_email req = Other o
  \/ body_field b_company req = Other o \/ body_field b_message req = Other o ->
  contact w req st = (internal_error, st).
Proof.
  intros Hn He Ho Hcase.
  destruct (contact_cases w req st) as [Hr | [Hr | (n & e & c & m & Hname & Hemail & Hc & Hm & _)]].
  - exfalso. unfold contact in Hr. rewrite Hn, He in Hr. simpl in Hr.
    destruct (bind _ _) as [sub|]; [destruct (k_save w)|]; discriminate.
  - exact Hr.
  - exfalso. destruct Hcase as [H | [H | [H | H]]].
    + congruence.
    + congruence.
    + rewrite H in Hc. unfold trim_or_empty in Hc. simpl in Hc. rewrite Ho in Hc. discriminate.
    + rewrite H in Hm. unfold trim_or_empty in Hm. simpl in Hm. rewrite Ho in Hm. discriminate.
Qed.

Lemma contact_non_text_witness :
  contact {| k_objectId := "65f0c0ffee"; k_save := DbOk |}
    {| x_api_key := None; cookie := None;
       body := Some (contact_body (Other number_42) (Str "a@b.com") Undefined Undefined) |}
    demo_server
  = (internal_error, demo_server).
Proof.
  apply (contact_non_text _ _ demo_server number_42);
    [reflexivity | reflexivity | reflexivity | left; reflexivity].
Defined.

(** ** Deleting a submission *)

Lemma find_id_none id (l : list submission) :
  find (fun s => String.eqb (sub_id s) id) l = None <-> forall doc, doc ∈ l -> sub_id doc <> id.
Proof.
  induction l as [|s l IH]; simpl.
  - split; [|done]. intros _ doc Hin. by apply elem_of_nil in Hin.
  - destruct (String.eqb_spec (sub_id s) id) as [Heq|Hne].
    + split; [done|]. intros H. exfalso. apply (H s); [left | done].
    + rewrite IH. split.
      * intros H doc Hin. apply elem_of_cons in Hin as [->|Hin]; auto.
      * intros H doc Hin. apply H. by right.
Qed.

Lemma find_id_some id (l : list submission) doc :
  find (fun s => String.eqb (sub_id s) id) l = Some doc -> doc ∈ l /\ sub_id doc = id.
Proof.
  induction l as [|s l IH]; simpl; [done|].
  destruct (String.eqb_spec (sub_id s) id) as [Heq|Hne].
  - intros [= <-]. split; [left | done].
  - intros H. destruct (IH H). split; [by right | done].
Qed.

Lemma remove_id_absent id (l : list submission) :
  (forall doc, doc ∈ l -> sub_id doc <> id) -> remove_id id l = l.
Proof.
  induction l as [|s l IH]; simpl; [done|]. intros H.
  destruct (String.eqb_spec (sub_id s) id) as [Heq|Hne].
  - exfalso. apply (H s); [left | done].
  - rewrite IH; [done|]. intros doc Hin. apply H. by right.
Qed.

Lemma remove_id_elem_of id (l : list submission) doc :
  NoDup (sub_id <$> l) ->
  doc ∈ remove_id id l <-> doc ∈ l /\ sub_id doc <> id.
Proof.
  induction l as [|s l IH]; simpl.
  - intros _. rewrite elem_of_nil. tauto.
  - rewrite NoDup_cons. intros [Hs Hnd].
    destruct (String.eqb_spec (sub_id s) id) as [Heq|Hne].
    + rewrite elem_of_cons. split.
      * intros Hin. split; [by right|]. intros Hid. apply Hs.
        rewrite Heq, <- Hid. by apply list_elem_of_fmap_2.
      * intros [[->|Hin] Hid]; [done | done].
    + rewrite !elem_of_cons, (IH Hnd). split.
      * intros [->|[Hin Hid]]; [by split; [left|] | by split; [right|]].
      * intros [[->|Hin] Hid]; [by left | by right].
Qed.

Lemma deleteSubmission_found r id st :
  id <> "" -> r = DbOk ->
  (exists doc, doc ∈ submissions st /\ sub_id doc = id) ->
  deleteSubmission r (Some id) st
  = (deleted, set_submissions (remove_id id (submissions st)) st).
Proof.
  intros Hid -> (doc & Hin & Hdoc). unfold deleteSubmission, Submission_findByIdAndDelete.
  apply truthy_str_true in Hid. rewrite Hid. simpl.
  destruct (find _ (submissions st)) as [doc'|] eqn:Hf; [done|].
  exfalso. rewrite find_id_none in Hf. by apply (Hf doc).
Qed.

Lemma deleteSubmission_missing r id st :
  id <> "" -> r = DbOk ->
  (forall doc, doc ∈ submissions st -> sub_id doc <> id) ->
  deleteSubmission r (Some id) st = (not_found, st).
Proof.
  intros Hid -> Hno. unfold deleteSubmission, Submission_findByIdAndDelete.
  apply truthy_str_true in Hid. rewrite Hid. simpl.
  apply find_id_none in Hno. by rewrite Hno.
Qed.

(** The answers of the handler, and the state each leaves. *)
Lemma deleteSubmission_cases r id st :
  (exists resp, deleteSubmission r id st = (resp, st) /\ status resp <> 200)
  \/ exists i, id = Some i /\ i <> "" /\ r = DbOk
       /\ (exists doc, doc ∈ submissions st /\ sub_id doc = i)
       /\ deleteSubmission r id st
          = (deleted, set_submissions (remove_id i (submissions st)) st).
Proof.
  destruct id as [i|]; [|left; eexists; split; [reflexivity | done]].
  destruct (String.eqb_spec i "") as [->|Hi]; [left; eexists; split; [reflexivity | done]|].
  destruct r as [|e].
  - destruct (find (fun s => String.eqb (sub_id s) i) (submissions st)) as [doc|] eqn:Hf.
    + right. exists i. apply find_id_some in Hf.
      assert (Hex : exists doc, doc ∈ submissions st /\ sub_id doc = i) by eauto.
      repeat split; try done. by apply deleteSubmission_found.
    + left. exists not_found. split; [|done].
      apply deleteSubmission_missing; try done. by apply find_id_none.
  - left. exists internal_error. split; [|done].
    unfold deleteSubmission. apply truthy_str_true in Hi. by rewrite Hi.
Qed.

(** X19: with ids that are unique, as [_id] is in the collection, and both
    the stored ids and the id of the request spelt as ObjectIds are (24
    lower-case hexadecimal digits), a delete by id that reaches the
    database answers 200 when a submission has that id and 404 when none
    has; afterwards the collection holds exactly the submissions it held
    with another id; and the same delete again is answered 404 and
    changes nothing. *)
Theorem deleteSubmission_spec (id : string) (st : server) :
  object_id id ->
  Forall (fun doc => object_id (sub_id doc)) (submissions st) ->
  NoDup (sub_id <$> submissions st) ->
  (fst (deleteSubmission DbOk (Some id) st) = deleted
     <-> exists doc, doc ∈ submissions st /\ sub_id doc = id)
  /\ (fst (deleteSubmission DbOk (Some id) st) = not_found
        <-> forall doc, doc ∈ submissions st -> sub_id doc <> id)
  /\ (forall doc,
        doc ∈ submissions (snd (deleteSubmission DbOk (Some id) st))
        <-> doc ∈ submissions st /\ sub_id doc <> id)
  /\ deleteSubmission DbOk (Some id) (snd (deleteSubmission DbOk (Some id) st))
     = (not_found, snd (deleteSubmission DbOk (Some id) st)).
Proof.
  intros Hoid _ Hnd.
  assert (Hid : id <> "") by (intros ->; by destruct Hoid).
  destruct (find (fun s => String.eqb (sub_id s) id) (submissions st)) as [d|] eqn:Hf.
  - apply find_id_some in Hf.
    assert (Hex : exists doc, doc ∈ submissions st /\ sub_id doc = id) by eauto.
    rewrite (deleteSubmission_found DbOk id st Hid eq_refl Hex). cbn [fst snd].
    split; [done|]. split; [|split].
    + split; [discriminate|]. intros Hno. destruct Hf as [Hin Hd]. by destruct (Hno d Hin).
    + intros doc. by apply remove_id_elem_of.
    + apply deleteSubmission_missing; try done. simpl. intros doc Hin.
      by apply (remove_id_elem_of id (submissions st) doc Hnd).
  - rewrite find_id_none in Hf.
    rewrite (deleteSubmission_missing DbOk id st Hid eq_refl Hf). cbn [fst snd].
    split; [|split; [done|split]].
    + split; [discriminate|]. intros (doc & Hin & Hd). by destruct (Hf doc Hin).
    + intros doc. split; [intros Hin; split; [done | by apply Hf] | by intros [? _]].
    + by apply deleteSubmission_missing.
Qed.

Lemma deleteSubmission_spec_witness :
  deleteSubmission DbOk (Some "65f0c0ffee0123456789abcd")
    (set_submissions [ada; bob] demo_server)
    = (deleted, set_submissions [bob] demo_server)
  /\ deleteSubmission DbOk (Some "65f0c0ffee0123456789abcd")
       (set_submissions [bob] demo_server)
     = (not_found, set_submissions [bob] demo_server).
Proof.
  split; [reflexivity|].
  assert (Hnd : NoDup (sub_id <$> submissions (set_submissions [ada; bob] demo_server))).
  { apply (bool_decide_unpack _). by vm_compute. }
  assert (Hids : Forall (fun doc => object_id (sub_id doc))
                   (submissions (set_submissions [ada; bob] demo_server))).
  { repeat constructor. }
  exact (proj2 (proj2 (proj2
           (deleteSubmission_spec "65f0c0ffee0123456789abcd"
              (set_submissions [ada; bob] demo_server)
              (conj eq_refl eq_refl) Hids Hnd)))).
Defined.

(** X20: DELETE /admin/submissions/:id removes a submission only for a
    request that gets through the gate: every answer other than 200
    (401, 400 for a missing id, 404, 500) leaves the collection as it was,
    and a 200 comes only after the gate let the request through; the
    stored credential, the environment and the admin key are never
    touched. *)
Theorem deleteSubmission_route_guarded
    (now_check now_refresh : Z) (r : db_reply) (id : option string)
    (req : request) (st : server) :
  (status (fst (deleteSubmission_route now_check now_refresh r id req st)) <> 200 ->
   submissions (snd (deleteSubmission_route now_check now_refresh r id req st))
   = submissions st)
  /\ (status (fst (deleteSubmission_route now_check now_refresh r id req st)) = 200 ->
      fst (requireAdminAuth now_check now_refresh req st) = Returned Next)
  /\ (fst (requireAdminAuth now_check now_refresh req st) <> Returned Next ->
      fst (deleteSubmission_route now_check now_refresh r id req st) = unauthorized)
  /\ env (snd (deleteSubmission_route now_check now_refresh r id req st)) = env st
  /\ ADMIN_KEY (snd (deleteSubmission_route now_check now_refresh r id req st)) = ADMIN_KEY st
  /\ admins (snd (deleteSubmission_route now_check now_refresh r id req st)) = admins st.
Proof.
  unfold deleteSubmission_route.
  pose proof (requireAdminAuth_fields now_check now_refresh req st) as (He & Hk & Ha & Hs).
  destruct (requireAdminAuth_cases now_check now_refresh req st) as [[st1 Hr] | [st1 Hr]];
    rewrite Hr in *; simpl in *.
  - destruct (deleteSubmission_cases r id st1)
      as [(resp & -> & Hresp) | (i & _ & _ & _ & _ & ->)]; simpl; repeat split; try done.
  - repeat split; try done.
Qed.

(** ** Listing the submissions *)

(** X21: GET and POST /admin/submissions hand out rows only to a request
    that got through the gate while Mongoose was connected and the query
    succeeded; as the sort of the query only reorders, the rows are then
    the whole collection, every document once, in the order of the query.
    A request the gate turns away is answered 401, a disconnected
    database 503 without a query, and in no case does the route change
    anything but what the gate changed. *)
Theorem listSubmissions_route_spec
    (now_check now_refresh readyState : Z) (find_exec : db_reply)
    (newest_first : list submission -> list submission) (req : request) (st : server) :
  (forall l, newest_first l ≡ₚ l) ->
  (forall rows,
     fst (listSubmissions_route now_check now_refresh readyState find_exec
            newest_first req st) = Rows rows ->
     fst (requireAdminAuth now_check now_refresh req st) = Returned Next
     /\ readyState = 1 /\ find_exec = DbOk
     /\ rows = newest_first (submissions st)
     /\ rows ≡ₚ submissions st)
  /\ (fst (requireAdminAuth now_check now_refresh req st) <> Returned Next ->
      fst (listSubmissions_route now_check now_refresh readyState find_exec
             newest_first req st) = Reply unauthorized)
  /\ (fst (requireAdminAuth now_check now_refresh req st) = Returned Next ->
      readyState <> 1 ->
      fst (listSubmissions_route now_check now_refresh readyState find_exec
             newest_first req st)
      = Reply (respond 503 (PError "database not connected")))
  /\ snd (listSubmissions_route now_check now_refresh readyState find_exec
            newest_first req st)
     = snd (requireAdminAuth now_check now_refresh req st).
Proof.
  intros Hperm. unfold listSubmissions_route, listSubmissions.
  pose proof (requireAdminAuth_fields now_check now_refresh req st) as (_ & _ & _ & Hs).
  destruct (requireAdminAuth_cases now_check now_refresh req st) as [[st1 Hr] | [st1 Hr]];
    rewrite Hr in *; simpl in *.
  - destruct (Z.eqb_spec readyState 1) as [->|Hrs]; simpl.
    + destruct find_exec; simpl; (split; [|done]).
      * intros rows [= <-]. rewrite Hs. repeat split. apply Hperm.
      * intros rows [=].
    + repeat split; done.
  - repeat split; try done.
Qed.

Lemma listSubmissions_route_spec_witness :
  fst (listSubmissions_route 1000 1001 1 DbOk reverse demo_change
         (set_submissions [ada; bob] demo_server)) = Rows [bob; ada]
  /\ [bob; ada] ≡ₚ [ada; bob].
Proof.
  split; [reflexivity|].
  destruct (listSubmissions_route_spec 1000 1001 1 DbOk reverse demo_change
              (set_submissions [ada; bob] demo_server)
              (fun l => reverse_Permutation l)) as (Hrows & _).
  exact (proj2 (proj2 (proj2 (proj2 (Hrows [bob; ada] eq_refl))))).
Defined.

(** ** CORS *)

(** The origin check of the CORS options allows every origin: one on the
    list, one containing [vercel.app], none at all, and any other. *)
Lemma cors_origin_allows_all (origin : option string) : cors_origin origin = true.
Proof.
  unfold cors_origin.
  by destruct (negb (truthy_opt origin) || _).
Qed.

(** ** The length policy and values that are not strings *)

(** X22: the six-character minimum is a test on [.length], which only
    strings (and arrays) have. When the current password is right and the
    new password is truthy, is not a string and has no [length] below 6
    (the JSON value [true], a number), the assignment to [process.env]
    converts it with [String]: if that throws, the answer is 500 and
    nothing has changed; if it gives a string without NUL characters,
    the answer is 200 and that string, however short, is the fallback
    password, and what the schema casts the value to is the stored
    password when the upsert succeeds. *)
Theorem changePassword_non_string_new_password
    (w : change_world) (req : request) (st : server) (b : reqbody) (expected : string)
    (o : other) :
  body req = Some b ->
  getAdminPassword (c_readyState_lookup w) (c_findOne w) st = Returned expected ->
  b_currentPassword b = Str expected ->
  b_newPassword b = Other o -> o_truthy o = true -> o_length_lt_6 o = Returned false ->
  match o_string o with
  | Thrown _ => changePassword w req st = (internal_error, st)
  | Returned p =>
      nul_free p ->
      fst (changePassword w req st) = password_changed
      /\ ADMIN_PANEL_PASSWORD (env (snd (changePassword w req st))) = Some p
      /\ (forall q, c_readyState_persist w = 1 -> c_findOneAndUpdate w = DbOk ->
                    o_cast o = Returned q ->
                    admins (snd (changePassword w req st))
                    = Some {| password := q; updatedAt := c_now w |})
  end.
Proof.
  intros Hb He Hcur Hnew Ht Hl.
  assert (Hp : passes_validation b expected).
  { unfold passes_validation. rewrite Hcur, Hnew. simpl.
    pose proof (getAdminPassword_not_empty _ _ _ _ He) as Hne.
    apply truthy_str_true in Hne. by rewrite Hne, String.eqb_refl, Ht, Hl. }
  destruct (o_string o) as [p|e] eqn:Hstr.
  - intros Hnul.
    rewrite (changePassword_accepted w req st b expected Hb He p Hp) by by rewrite Hnew.
    rewrite Hnew. simpl. rewrite (c_string_nul_free p Hnul).
    split; [done|]. split; [done|]. intros q Hrs Hup Hq. by rewrite Hq, Hrs, Hup.
  - apply (changePassword_unconvertible w req st b expected Hb He e Hp). by rewrite Hnew.
Qed.

Lemma changePassword_non_string_new_password_witness :
  let req := {| x_api_key := Some "k3y-for-admins"; cookie := None;
                body := Some (change_body (Str "admin1234") (Other json_true)) |} in
  let req' := {| x_api_key := Some "k3y-for-admins"; cookie := None;
                 body := Some (change_body (Str "admin1234") (Other json_toString_1)) |} in
  fst (changePassword world_upsert_ok req demo_server) = password_changed
  /\ ADMIN_PANEL_PASSWORD (env (snd (changePassword world_upsert_ok req demo_server)))
     = Some "true"
  /\ changePassword world_upsert_ok req' demo_server = (internal_error, demo_server).
Proof.
  intros req req'.
  destruct (changePassword_non_string_new_password world_upsert_ok req demo_server
              (change_body (Str "admin1234") (Other json_true)) "admin1234" json_true
              eq_refl eq_refl eq_refl eq_refl eq_refl eq_refl eq_refl) as (Hok & Henv & _).
  split; [exact Hok | split; [exact Henv|]].
  exact (changePassword_non_string_new_password world_upsert_ok req' demo_server
           (change_body (Str "admin1234") (Other json_toString_1)) "admin1234"
           json_toString_1 eq_refl eq_refl eq_refl eq_refl eq_refl eq_refl).
Defined.

(** ** Storing, then deleting *)

Lemma remove_id_last id (l : list submission) sub :
  (forall doc, doc ∈ l -> sub_id doc <> id) -> sub_id sub = id ->
  remove_id id (l ++ [sub]) = l.
Proof.
  intros Hno Hsub. induction l as [|s l IH]; simpl.
  - apply String.eqb_eq in Hsub. by rewrite Hsub.
  - destruct (String.eqb_spec (sub_id s) id) as [Heq|Hne].
    + exfalso. apply (Hno s); [left | done].
    + rewrite IH; [done|]. intros doc Hin. apply Hno. by right.
Qed.

(** X23: a submission stored by POST /api/contact under an id no other
    submission has is removed again by a delete with the id of the 201
    answer, which is answered 200 and gives back the state there was
    before the contact request. *)
Theorem contact_then_delete (w : contact_world) (req : request) (st : server) :
  status (fst (contact w req st)) = 201 ->
  k_objectId w <> "" ->
  (forall doc, doc ∈ submissions st -> sub_id doc <> k_objectId w) ->
  json (fst (contact w req st)) = PCreated (k_objectId w)
  /\ deleteSubmission DbOk (Some (k_objectId w)) (snd (contact w req st)) = (deleted, st).
Proof.
  intros Hok Hid Hfresh.
  destruct (contact_cases w req st)
    as [Hr | [Hr | (n & e & c & m & _ & _ & _ & _ & Hr)]];
    rewrite Hr in Hok |- *; try discriminate Hok.
  split; [done|]. cbn [snd].
  rewrite deleteSubmission_found; [| done | done |].
  - f_equal. simpl. rewrite remove_id_last by done. by destruct st.
  - eexists. split; [simpl; apply elem_of_app; right; by left | reflexivity].
Qed.

Lemma contact_then_delete_witness :
  deleteSubmission DbOk (Some "65f0c0ffee")
    (snd (contact {| k_objectId := "65f0c0ffee"; k_save := DbOk |} named_request
            (set_submissions [bob] demo_server)))
  = (deleted, set_submissions [bob] demo_server).
Proof.
  apply (contact_then_delete {| k_objectId := "65f0c0ffee"; k_save := DbOk |}
           named_request (set_submissions [bob] demo_server)).
  - reflexivity.
  - discriminate.
  - intros doc Hin. apply list_elem_of_singleton in Hin as ->. discriminate.
Defined.
